(** * ClusterRegistration controller (kubevela): a shallow embedding

  Source files embedded here:
  - [apis/core.oam.dev/v1beta1/clusterregistration_types.go]
  - [pkg/controller/core.oam.dev/v1beta1/clusterregistration/clusterregistration_controller.go]

  The reconciler is effectful Go code: it reads and writes one API object
  through a client, creates a temporary file, and calls the multicluster
  package.  It is modelled in ExtLib's state monad over a [World] that holds
  the API server's copy of the object, the temporary files, the clock
  position and the trace of calls made.  The answers of everything outside
  the controller (client errors, the kubeconfig parser, validation,
  registration, detachment, the clock) are the fields of an [Env]. *)

From Stdlib Require Import String ZArith List Bool Lia.
From ExtLib Require Import Structures.Monad Structures.MonadState.
From ExtLib Require Import Data.Monads.StateMonad.
Import ListNotations.
Import MonadNotation.
Local Open Scope string_scope.
Local Open Scope Z_scope.
Local Open Scope monad_scope.

Set Implicit Arguments.

(* ------------------------------------------------------------------ *)
(** ** Go's [error] values and k8s.io/apimachinery/pkg/api/errors        *)
(* ------------------------------------------------------------------ *)

Module apierrors.

(** The reason carried by an API status error; an error that is not an API
    status error has [StatusReasonUnknown]. *)
Inductive StatusReason : Type :=
| StatusReasonUnknown
| StatusReasonNotFound
| StatusReasonConflict.

(** A Go [error]: the text of [err.Error()] and the API reason. *)
Record error : Type := mkError
  { Error : string
  ; Reason : StatusReason }.

Definition IsNotFound (err : error) : bool :=
  match Reason err with
  | StatusReasonNotFound => true
  | _ => false
  end.

(** [errors.New(msg)] of github.com/pkg/errors. *)
Definition New (msg : string) : error := mkError msg StatusReasonUnknown.

(** What the API server answers for an object that does not exist. *)
Definition NewNotFound (name : string) : error :=
  mkError ("clusterregistrations.core.oam.dev " ++ name ++ " not found")
          StatusReasonNotFound.

End apierrors.

(* ------------------------------------------------------------------ *)
(** ** metav1: time stamps and object metadata                          *)
(* ------------------------------------------------------------------ *)

Module metav1.

(** [metav1.Time]: an instant, counted from Go's zero time. *)
Definition Time : Type := Z.

(** [IsZero] on a pointer to a time: a nil pointer or the zero instant. *)
Definition IsZero (t : option Time) : bool :=
  match t with
  | None => true
  | Some i => i =? 0
  end.

(** The part of [metav1.ObjectMeta] the controller reads or writes. *)
Record ObjectMeta : Type := mkObjectMeta
  { Name : string
  ; Namespace : string
  ; Generation : Z                      (* int64 *)
  ; DeletionTimestamp : option Time     (* *Time *)
  ; Finalizers : list string }.

Definition setFinalizers (m : ObjectMeta) (fs : list string) : ObjectMeta :=
  mkObjectMeta (Name m) (Namespace m) (Generation m) (DeletionTimestamp m) fs.

End metav1.

(* ------------------------------------------------------------------ *)
(** ** apis/core.oam.dev/condition                                      *)
(* ------------------------------------------------------------------ *)

Module condition.

Inductive ConditionStatus : Type := ConditionTrue | ConditionFalse | ConditionUnknown.
Inductive ConditionReason : Type := ReasonAvailable | ReasonUnavailable.

(** Modelled from the spec: the package [apis/core.oam.dev/condition] is not
    among the sources.  The spec gives a condition the fields
    {type, status, reason, message, lastTransitionTime} and names the two
    judgments Available and Unavailable; both are conditions of type Ready. *)
Record Condition : Type := mkCondition
  { Type_ : string
  ; Status : ConditionStatus
  ; LastTransitionTime : metav1.Time
  ; Reason : ConditionReason
  ; Message : string }.

(** Modelled from the spec: [condition.Available()], stamped with the time
    of the call. *)
Definition Available (now : metav1.Time) : Condition :=
  mkCondition "Ready" ConditionTrue now ReasonAvailable "".

(** Modelled from the spec: [condition.Unavailable()], stamped with the time
    of the call. *)
Definition Unavailable (now : metav1.Time) : Condition :=
  mkCondition "Ready" ConditionFalse now ReasonUnavailable "".

Definition setMessage (c : Condition) (msg : string) : Condition :=
  mkCondition (Type_ c) (Status c) (LastTransitionTime c) (Reason c) msg.

End condition.

(* ------------------------------------------------------------------ *)
(** ** clusterregistration_types.go                                     *)
(* ------------------------------------------------------------------ *)

Module v1beta1.

Record ClusterRegistrationSpec : Type := mkSpec
  { ClusterName : string
  ; Alias : string
  ; Kubeconfig : string
  ; CreateNamespace : string
  ; Labels : list (string * string) }.

(** [type ClusterRegistrationPhase string]: any string can be stored, the
    four constants are the ones the controller writes or tests. *)
Definition ClusterRegistrationPhase : Type := string.

Definition ClusterRegistrationPhasePending : ClusterRegistrationPhase := "Pending".
Definition ClusterRegistrationPhaseProgressing : ClusterRegistrationPhase := "Progressing".
Definition ClusterRegistrationPhaseReady : ClusterRegistrationPhase := "Ready".
Definition ClusterRegistrationPhaseFailed : ClusterRegistrationPhase := "Failed".

Record ClusterInfo : Type := mkClusterInfo
  { Endpoint : string
  ; CredentialType : string
  ; Version : string }.

Record ClusterRegistrationStatus : Type := mkStatus
  { Phase : ClusterRegistrationPhase
  ; Conditions : list condition.Condition
  ; ClusterInfo_ : option ClusterInfo          (* *ClusterInfo *)
  ; Message : string
  ; ObservedGeneration : Z                     (* int64 *)
  ; LastReconcileTime : option metav1.Time }.  (* *metav1.Time *)

Record ClusterRegistration : Type := mkClusterRegistration
  { ObjectMeta : metav1.ObjectMeta
  ; Spec : ClusterRegistrationSpec
  ; Status : ClusterRegistrationStatus }.

(** The zero value of the status, as on a record the user has just applied. *)
Definition emptyStatus : ClusterRegistrationStatus :=
  mkStatus "" [] None "" 0 None.

(** Field assignments [clusterReg.Status.X = v]. *)
Definition setStatus (o : ClusterRegistration) (s : ClusterRegistrationStatus)
  : ClusterRegistration :=
  mkClusterRegistration (ObjectMeta o) (Spec o) s.

Definition setObjectMeta (o : ClusterRegistration) (m : metav1.ObjectMeta)
  : ClusterRegistration :=
  mkClusterRegistration m (Spec o) (Status o).

Definition setPhase (o : ClusterRegistration) (p : ClusterRegistrationPhase) :=
  let s := Status o in
  setStatus o (mkStatus p (Conditions s) (ClusterInfo_ s) (Message s)
                        (ObservedGeneration s) (LastReconcileTime s)).

Definition setConditions (o : ClusterRegistration) (cs : list condition.Condition) :=
  let s := Status o in
  setStatus o (mkStatus (Phase s) cs (ClusterInfo_ s) (Message s)
                        (ObservedGeneration s) (LastReconcileTime s)).

Definition setClusterInfo (o : ClusterRegistration) (ci : option ClusterInfo) :=
  let s := Status o in
  setStatus o (mkStatus (Phase s) (Conditions s) ci (Message s)
                        (ObservedGeneration s) (LastReconcileTime s)).

Definition setMessage (o : ClusterRegistration) (m : string) :=
  let s := Status o in
  setStatus o (mkStatus (Phase s) (Conditions s) (ClusterInfo_ s) m
                        (ObservedGeneration s) (LastReconcileTime s)).

Definition setObservedGeneration (o : ClusterRegistration) (g : Z) :=
  let s := Status o in
  setStatus o (mkStatus (Phase s) (Conditions s) (ClusterInfo_ s) (Message s)
                        g (LastReconcileTime s)).

Definition setLastReconcileTime (o : ClusterRegistration) (t : option metav1.Time) :=
  let s := Status o in
  setStatus o (mkStatus (Phase s) (Conditions s) (ClusterInfo_ s) (Message s)
                        (ObservedGeneration s) t).

(** Promoted fields of the embedded [metav1.ObjectMeta]. *)
Definition Name (o : ClusterRegistration) : string := metav1.Name (ObjectMeta o).
Definition Generation (o : ClusterRegistration) : Z := metav1.Generation (ObjectMeta o).
Definition DeletionTimestamp (o : ClusterRegistration) : option metav1.Time :=
  metav1.DeletionTimestamp (ObjectMeta o).
Definition Finalizers (o : ClusterRegistration) : list string :=
  metav1.Finalizers (ObjectMeta o).

End v1beta1.

(* ------------------------------------------------------------------ *)
(** ** sigs.k8s.io/controller-runtime: controllerutil and ctrl.Result   *)
(* ------------------------------------------------------------------ *)

Module controllerutil.
Import v1beta1.

(** A loop over the finalizers that answers true at the first equal one. *)
Definition ContainsFinalizer (o : ClusterRegistration) (finalizer : string) : bool :=
  existsb (String.eqb finalizer) (Finalizers o).

(** Appends the finalizer unless it is already there. *)
Definition AddFinalizer (o : ClusterRegistration) (finalizer : string)
  : ClusterRegistration :=
  if ContainsFinalizer o finalizer then o
  else setObjectMeta o
         (metav1.setFinalizers (ObjectMeta o) (Finalizers o ++ [finalizer])).

(** Keeps, in order, the finalizers different from the given one. *)
Definition RemoveFinalizer (o : ClusterRegistration) (finalizer : string)
  : ClusterRegistration :=
  setObjectMeta o
    (metav1.setFinalizers (ObjectMeta o)
       (filter (fun f => negb (String.eqb f finalizer)) (Finalizers o))).

End controllerutil.

Module ctrl.

(** [time.Duration], in nanoseconds. *)
Definition Duration : Type := Z.
Definition Second : Duration := 1000000000.

Record Result : Type := mkResult
  { Requeue : bool
  ; RequeueAfter : Duration }.

(** The zero value [ctrl.Result{}]. *)
Definition Result0 : Result := mkResult false 0.

End ctrl.

(* ------------------------------------------------------------------ *)
(** ** pkg/multicluster: what the controller uses of it                 *)
(* ------------------------------------------------------------------ *)

Module multicluster.

(** Modelled from the spec: the constant is declared in pkg/multicluster,
    which is not among the sources; the controller's own message and the
    design document give its value, the name of the hub cluster. *)
Definition ClusterLocalName : string := "local".

(** [clientcmdapi.AuthInfo] of client-go: the two fields the controller
    inspects. *)
Record AuthInfo_t : Type := mkAuthInfo
  { Token : string
  ; Exec : option string }.     (* *ExecConfig: nil or a provider *)

(** [clientcmdapi.Cluster] of client-go: the server URL. *)
Record Cluster_t : Type := mkCluster
  { Server : string }.

(** Modelled from the spec: [multicluster.KubeClusterConfig] is declared in
    pkg/multicluster, which is not among the sources.  It is the structured
    credential of the spec: the cluster name and the namespace to create,
    which the controller applies to it, and the endpoint and auth method read
    from the connection descriptor. *)
Record KubeClusterConfig : Type := mkKubeClusterConfig
  { ClusterName : string
  ; CreateNamespace : string
  ; Cluster : Cluster_t
  ; AuthInfo : AuthInfo_t }.

(** Modelled from the spec: the two setters apply the resolved cluster name
    and the namespace to create to the loaded credential and leave the rest
    of it alone. *)
Definition SetClusterName (c : KubeClusterConfig) (n : string) : KubeClusterConfig :=
  mkKubeClusterConfig n (CreateNamespace c) (Cluster c) (AuthInfo c).

Definition SetCreateNamespace (c : KubeClusterConfig) (n : string) : KubeClusterConfig :=
  mkKubeClusterConfig (ClusterName c) n (Cluster c) (AuthInfo c).

End multicluster.

(* ------------------------------------------------------------------ *)
(** ** clusterregistration_controller.go                                *)
(* ------------------------------------------------------------------ *)

Module clusterregistration.
Import apierrors v1beta1.

Definition clusterRegistrationFinalizer : string :=
  "clusterregistration.core.oam.dev/finalizer".

(** *** The world outside the controller *)

(** One entry per call that leaves the controller, in program order. *)
Inductive Event : Type :=
| EvGet
| EvUpdate (o : ClusterRegistration)
| EvStatusUpdate (o : ClusterRegistration)
| EvCreateTemp
| EvWrite (name content : string)
| EvClose (name : string)
| EvRemove (name : string)
| EvLoad (name : string)
| EvValidate (c : multicluster.KubeClusterConfig)
| EvRegister (c : multicluster.KubeClusterConfig)
| EvDetach (clusterName : string).

(** What the collaborators answer during one reconciliation pass.  [None]
    in an [option error] is Go's nil error.  The functions of pkg/multicluster
    (the kubeconfig parser, [Validate], [RegisterByVelaSecret],
    [DetachCluster]) are not among the sources: the controller is verified
    for whatever they answer. *)
Record Env : Type := mkEnv
  { get_err : option error
      (* a failure of r.Get other than the object being absent *)
  ; update_err : ClusterRegistration -> option error          (* r.Update *)
  ; status_update_err : ClusterRegistration -> option error   (* r.Status().Update *)
  ; create_temp : error + string                              (* os.CreateTemp *)
  ; write_err : string -> option error                        (* tmpfile.Write *)
  ; load_config : option string -> error + multicluster.KubeClusterConfig
      (* LoadKubeClusterConfigFromFile, from what the path holds *)
  ; validate : multicluster.KubeClusterConfig -> option error (* Validate *)
  ; register : multicluster.KubeClusterConfig -> option error (* RegisterByVelaSecret *)
  ; detach : string -> option error                           (* DetachCluster *)
  ; clock : nat -> metav1.Time                                (* metav1.Now *)
  }.

(** The state a pass runs in: the API server's copy of the record under the
    request's key, the temporary files, the number of clock readings so
    far, and the calls made so far. *)
Record World : Type := mkWorld
  { object : option ClusterRegistration
  ; files : list (string * string)
  ; ticks : nat
  ; trace : list Event }.

Definition M : Type -> Type := state World.

Definition emit (ev : Event) : M unit :=
  w <- get ;;
  put (mkWorld (object w) (files w) (ticks w) (trace w ++ [ev])).

Definition setObject (o : option ClusterRegistration) : M unit :=
  w <- get ;;
  put (mkWorld o (files w) (ticks w) (trace w)).

Definition setFiles (fs : list (string * string)) : M unit :=
  w <- get ;;
  put (mkWorld (object w) fs (ticks w) (trace w)).

(** [metav1.Now()]. *)
Definition Now (e : Env) : M metav1.Time :=
  w <- get ;;
  put (mkWorld (object w) (files w) (S (ticks w)) (trace w)) ;;
  ret (clock e (ticks w)).

(** [r.Get(ctx, req.NamespacedName, clusterReg)]. *)
Definition Get (e : Env) (name : string) : M (error + ClusterRegistration) :=
  emit EvGet ;;
  w <- get ;;
  match get_err e with
  | Some err => ret (inl err)
  | None =>
      match object w with
      | None => ret (inl (NewNotFound name))
      | Some o => ret (inr o)
      end
  end.

(** What the API server does with a record that carries a deletion mark and
    no finalizer (any more): it deletes it. *)
Definition released (o : ClusterRegistration) : bool :=
  negb (metav1.IsZero (DeletionTimestamp o))
  && match Finalizers o with
     | [] => true
     | _ :: _ => false
     end.

(** [r.Update(ctx, clusterReg)].  The kind has a status subresource, so the
    server keeps its own status and takes metadata and spec.  An accepted
    Update that leaves a deletion-marked record without finalizer deletes the
    record. *)
Definition Update (e : Env) (o : ClusterRegistration) : M (option error) :=
  emit (EvUpdate o) ;;
  w <- get ;;
  match update_err e o with
  | Some err => ret (Some err)
  | None =>
      match object w with
      | None => ret (Some (NewNotFound (Name o)))
      | Some stored =>
          let o' := setStatus o (Status stored) in
          setObject (if released o' then None else Some o') ;;
          ret None
      end
  end.

(** [r.Status().Update(ctx, clusterReg)]: the server takes the status and
    keeps its own metadata and spec. *)
Definition StatusUpdate (e : Env) (o : ClusterRegistration) : M (option error) :=
  emit (EvStatusUpdate o) ;;
  w <- get ;;
  match status_update_err e o with
  | Some err => ret (Some err)
  | None =>
      match object w with
      | None => ret (Some (NewNotFound (Name o)))
      | Some stored => setObject (Some (setStatus stored (Status o))) ;; ret None
      end
  end.

Fixpoint readFile (name : string) (fs : list (string * string)) : option string :=
  match fs with
  | [] => None
  | (n, c) :: rest => if String.eqb n name then Some c else readFile name rest
  end.

Definition removeFile (name : string) (fs : list (string * string))
  : list (string * string) :=
  filter (fun f => negb (String.eqb (fst f) name)) fs.

(** [os.CreateTemp("", "kubeconfig-*.yaml")]. *)
Definition CreateTemp (e : Env) : M (error + string) :=
  emit EvCreateTemp ;;
  match create_temp e with
  | inl err => ret (inl err)
  | inr name =>
      w <- get ;;
      setFiles ((name, "") :: removeFile name (files w)) ;;
      ret (inr name)
  end.

(** [tmpfile.Write(content)]. *)
Definition Write (e : Env) (name content : string) : M (option error) :=
  emit (EvWrite name content) ;;
  match write_err e content with
  | Some err => ret (Some err)
  | None =>
      w <- get ;;
      let old := match readFile name (files w) with Some c => c | None => "" end in
      setFiles ((name, old ++ content) :: removeFile name (files w)) ;;
      ret None
  end.

(** [tmpfile.Close()]; its result is not looked at. *)
Definition Close (name : string) : M unit := emit (EvClose name).

(** [os.Remove(tmpfile.Name())], the deferred call. *)
Definition Remove (name : string) : M unit :=
  emit (EvRemove name) ;;
  w <- get ;;
  setFiles (removeFile name (files w)).

(** [multicluster.LoadKubeClusterConfigFromFile(path)]. *)
Definition LoadKubeClusterConfigFromFile (e : Env) (path : string)
  : M (error + multicluster.KubeClusterConfig) :=
  emit (EvLoad path) ;;
  w <- get ;;
  ret (load_config e (readFile path (files w))).

(** [clusterConfig.Validate()]. *)
Definition Validate (e : Env) (c : multicluster.KubeClusterConfig) : M (option error) :=
  emit (EvValidate c) ;;
  ret (validate e c).

(** [clusterConfig.RegisterByVelaSecret(ctx, r.Client)]. *)
Definition RegisterByVelaSecret (e : Env) (c : multicluster.KubeClusterConfig)
  : M (option error) :=
  emit (EvRegister c) ;;
  ret (register e c).

(** [multicluster.DetachCluster(ctx, r.Client, clusterName)]. *)
Definition DetachCluster (e : Env) (clusterName : string) : M (option error) :=
  emit (EvDetach clusterName) ;;
  ret (detach e clusterName).

(** *** The controller *)

(** What [Reconcile] and [handleDeletion] return: [(ctrl.Result, error)]. *)
Definition Outcome : Type := (ctrl.Result * option error)%type.

(** Lines 88-92 and 195-199: the cluster name, the record's name when the
    spec gives none. *)
Definition resolveClusterName (clusterReg : ClusterRegistration) : string :=
  let clusterName := ClusterName (Spec clusterReg) in
  if String.eqb clusterName "" then Name clusterReg else clusterName.

(** [updateFailedStatus].  The Go function mutates the record through its
    pointer and returns nothing; the record as it is left is returned here.
    The error of the status write is logged and dropped. *)
Definition updateFailedStatus (e : Env) (clusterReg : ClusterRegistration)
           (message : string) : M ClusterRegistration :=
  let clusterReg := setPhase clusterReg ClusterRegistrationPhaseFailed in
  let clusterReg := setMessage clusterReg message in
  let clusterReg := setObservedGeneration clusterReg (Generation clusterReg) in
  now <- Now e ;;
  let clusterReg := setLastReconcileTime clusterReg (Some now) in
  stamp <- Now e ;;
  let failedCondition := condition.Unavailable stamp in
  let failedCondition := condition.setMessage failedCondition message in
  let clusterReg := setConditions clusterReg [failedCondition] in
  _ <- StatusUpdate e clusterReg ;;
  ret clusterReg.

(** Lines 208-213 of [handleDeletion]: the finalizer is taken off and the
    record written back. *)
Definition removeFinalizerAndUpdate (e : Env) (clusterReg : ClusterRegistration)
  : M Outcome :=
  let clusterReg :=
    controllerutil.RemoveFinalizer clusterReg clusterRegistrationFinalizer in
  uerr <- Update e clusterReg ;;
  match uerr with
  | Some err => ret (ctrl.Result0, Some err)
  | None => ret (ctrl.Result0, None)
  end.

(** [handleDeletion]. *)
Definition handleDeletion (e : Env) (clusterReg : ClusterRegistration) : M Outcome :=
  if controllerutil.ContainsFinalizer clusterReg clusterRegistrationFinalizer then
    let clusterName := resolveClusterName clusterReg in
    derr <- DetachCluster e clusterName ;;
    match derr with
    | Some err =>
        if negb (IsNotFound err) then ret (ctrl.Result0, Some err)
        else removeFinalizerAndUpdate e clusterReg
    | None => removeFinalizerAndUpdate e clusterReg
    end
  else ret (ctrl.Result0, None).

(** Lines 161-165: the credential type read off the loaded credential. *)
Definition credentialTypeOf (clusterConfig : multicluster.KubeClusterConfig) : string :=
  let a := multicluster.AuthInfo clusterConfig in
  if (0 <? Z.of_nat (String.length (multicluster.Token a)))
     || (match multicluster.Exec a with Some _ => true | None => false end)
  then "ServiceAccountToken"
  else "X509Certificate".

(** Lines 114-188 of [Reconcile], from the creation of the temporary file
    on; [name] is the file's name and the deferred removal is run by the
    caller on every way out. *)
Definition registerWithFile (e : Env) (clusterReg : ClusterRegistration)
           (clusterName : string) (name : string) : M Outcome :=
  werr <- Write e name (Kubeconfig (Spec clusterReg)) ;;
  match werr with
  | Some err =>
      _ <- updateFailedStatus e clusterReg
             ("Failed to write kubeconfig: " ++ Error err) ;;
      ret (ctrl.Result0, None)
  | None =>
      Close name ;;
      loaded <- LoadKubeClusterConfigFromFile e name ;;
      match loaded with
      | inl err =>
          _ <- updateFailedStatus e clusterReg
                 ("Failed to load kubeconfig: " ++ Error err) ;;
          ret (ctrl.Result0, None)
      | inr clusterConfig =>
          let createNamespace := CreateNamespace (Spec clusterReg) in
          let createNamespace :=
            if String.eqb createNamespace "" then "vela-system" else createNamespace in
          let clusterConfig :=
            multicluster.SetCreateNamespace
              (multicluster.SetClusterName clusterConfig clusterName)
              createNamespace in
          verr <- Validate e clusterConfig ;;
          match verr with
          | Some err =>
              _ <- updateFailedStatus e clusterReg
                     ("Validation failed: " ++ Error err) ;;
              ret (ctrl.Result0, None)
          | None =>
              rerr <- RegisterByVelaSecret e clusterConfig ;;
              match rerr with
              | Some err =>
                  _ <- updateFailedStatus e clusterReg
                         ("Failed to register cluster: " ++ Error err) ;;
                  ret (ctrl.mkResult false (30 * ctrl.Second), None)
              | None =>
                  let credentialType := credentialTypeOf clusterConfig in
                  let clusterReg := setPhase clusterReg ClusterRegistrationPhaseReady in
                  let clusterReg := setMessage clusterReg "Cluster successfully registered" in
                  let clusterReg :=
                    setObservedGeneration clusterReg (Generation clusterReg) in
                  now <- Now e ;;
                  let clusterReg := setLastReconcileTime clusterReg (Some now) in
                  let clusterReg :=
                    setClusterInfo clusterReg
                      (Some (mkClusterInfo
                               (multicluster.Server (multicluster.Cluster clusterConfig))
                               credentialType "")) in
                  stamp <- Now e ;;
                  let readyCondition := condition.Available stamp in
                  let readyCondition :=
                    condition.setMessage readyCondition
                      "Cluster successfully registered and ready" in
                  let clusterReg := setConditions clusterReg [readyCondition] in
                  serr <- StatusUpdate e clusterReg ;;
                  match serr with
                  | Some err => ret (ctrl.Result0, Some err)
                  | None => ret (ctrl.Result0, None)
                  end
              end
          end
      end
  end.

(** [Reconcile].  [req] is the name in the request; logging is left out. *)
Definition Reconcile (e : Env) (req : string) : M Outcome :=
  fetched <- Get e req ;;
  match fetched with
  | inl err =>
      if IsNotFound err then ret (ctrl.Result0, None)
      else ret (ctrl.Result0, Some err)
  | inr clusterReg =>
      if negb (metav1.IsZero (DeletionTimestamp clusterReg)) then
        handleDeletion e clusterReg
      else if negb (controllerutil.ContainsFinalizer clusterReg
                      clusterRegistrationFinalizer) then
        let clusterReg :=
          controllerutil.AddFinalizer clusterReg clusterRegistrationFinalizer in
        uerr <- Update e clusterReg ;;
        match uerr with
        | Some err => ret (ctrl.Result0, Some err)
        | None => ret (ctrl.mkResult true 0, None)
        end
      else if String.eqb (Phase (Status clusterReg)) ClusterRegistrationPhaseReady
              && (ObservedGeneration (Status clusterReg) =? Generation clusterReg) then
        ret (ctrl.Result0, None)
      else
        let clusterName := resolveClusterName clusterReg in
        if String.eqb clusterName multicluster.ClusterLocalName then
          let err := New "cluster name cannot be 'local', it is reserved" in
          _ <- updateFailedStatus e clusterReg (Error err) ;;
          ret (ctrl.Result0, None)
        else if negb (String.eqb (Phase (Status clusterReg))
                                 ClusterRegistrationPhaseProgressing)
                && negb (String.eqb (Phase (Status clusterReg))
                                    ClusterRegistrationPhaseReady) then
          let clusterReg := setPhase clusterReg ClusterRegistrationPhaseProgressing in
          let clusterReg := setMessage clusterReg "Registering cluster..." in
          serr <- StatusUpdate e clusterReg ;;
          match serr with
          | Some err => ret (ctrl.Result0, Some err)
          | None => ret (ctrl.Result0, None)
          end
        else
          tmpfile <- CreateTemp e ;;
          match tmpfile with
          | inl err =>
              _ <- updateFailedStatus e clusterReg
                     ("Failed to create temporary file: " ++ Error err) ;;
              ret (ctrl.Result0, None)
          | inr name =>
              res <- registerWithFile e clusterReg clusterName name ;;
              Remove name ;;
              ret res
          end
  end.

End clusterregistration.

(* ------------------------------------------------------------------ *)
(** ** Passes, deliveries and user actions                              *)
(* ------------------------------------------------------------------ *)

Module dispatch.
Import apierrors v1beta1 clusterregistration.

(** What one call of [Reconcile] returns, the world it leaves, and the
    calls it made (the part of the trace it added). *)
Definition outcome (e : Env) (req : string) (w : World) : Outcome :=
  evalState (Reconcile e req) w.

Definition after (e : Env) (req : string) (w : World) : World :=
  execState (Reconcile e req) w.

Definition calls (e : Env) (req : string) (w : World) : list Event :=
  skipn (length (trace w)) (trace (after e req w)).

(** [Reconcile] is handed record [r]: the fetch at its start succeeds and
    returns [r]. *)
Definition delivers (e : Env) (w : World) (r : ClusterRegistration) : Prop :=
  get_err e = None /\ object w = Some r.

(** The same key delivered [n] times in a row, each time with answers [e]. *)
Fixpoint redeliver (e : Env) (req : string) (n : nat) (w : World) : World :=
  match n with
  | O => w
  | S k => redeliver e req k (after e req w)
  end.

Definition isRegister (ev : Event) : bool :=
  match ev with EvRegister _ => true | _ => false end.

Definition isLoad (ev : Event) : bool :=
  match ev with EvLoad _ => true | _ => false end.

Definition isStatusUpdate (ev : Event) : bool :=
  match ev with EvStatusUpdate _ => true | _ => false end.

Definition hasFinalizer (r : ClusterRegistration) : bool :=
  controllerutil.ContainsFinalizer r clusterRegistrationFinalizer.

Definition deletionMarked (r : ClusterRegistration) : bool :=
  negb (metav1.IsZero (DeletionTimestamp r)).

(** What happens to the record between passes.  The user owns the spec and
    the deletion mark, the reconciler owns the status. *)
Inductive Action : Type :=
| Deliver (e : Env)                       (* the dispatcher runs a pass *)
| Create (ns : string) (spec : ClusterRegistrationSpec)
| Edit (spec : ClusterRegistrationSpec)   (* a spec change: generation + 1 *)
| Delete (t : metav1.Time).
    (* the deletion mark is set; a record without finalizer is gone at once *)

Definition withObject (w : World) (o : option ClusterRegistration) : World :=
  mkWorld o (files w) (ticks w) (trace w).

Definition act (req : string) (a : Action) (w : World) : World :=
  match a with
  | Deliver e => after e req w
  | Create ns spec =>
      match object w with
      | Some _ => w
      | None =>
          withObject w
            (Some (mkClusterRegistration
                     (metav1.mkObjectMeta req ns 1 None []) spec emptyStatus))
      end
  | Edit spec =>
      match object w with
      | None => w
      | Some o =>
          let m := ObjectMeta o in
          withObject w
            (Some (mkClusterRegistration
                     (metav1.mkObjectMeta (metav1.Name m) (metav1.Namespace m)
                        (metav1.Generation m + 1) (metav1.DeletionTimestamp m)
                        (metav1.Finalizers m))
                     spec (Status o)))
      end
  | Delete t =>
      match object w with
      | None => w
      | Some o =>
          let m := ObjectMeta o in
          let o' :=
            setObjectMeta o
              (metav1.mkObjectMeta (metav1.Name m) (metav1.Namespace m)
                 (metav1.Generation m)
                 (if metav1.IsZero (metav1.DeletionTimestamp m)
                  then Some t else metav1.DeletionTimestamp m)
                 (metav1.Finalizers m)) in
          withObject w (if released o' then None else Some o')
      end
  end.

Fixpoint run (req : string) (acts : list Action) (w : World) : World :=
  match acts with
  | [] => w
  | a :: rest => run req rest (act req a w)
  end.

(** Nothing stored, no file, no call made yet. *)
Definition initial : World := mkWorld None [] O [].

(** The bound on the condition list. *)
Definition conditionsBounded (w : World) : Prop :=
  match object w with
  | None => True
  | Some o => (length (Conditions (Status o)) <= 1)%nat
  end.

(** The record [updateFailedStatus] leaves in memory. *)
Definition failedRecord (e : Env) (clusterReg : ClusterRegistration)
           (message : string) (w : World) : ClusterRegistration :=
  evalState (updateFailedStatus e clusterReg message) w.

(** [e] with the status writes answered by [f] instead. *)
Definition withStatusWrites (e : Env) (f : ClusterRegistration -> option error) : Env :=
  mkEnv (get_err e) (update_err e) f (create_temp e) (write_err e) (load_config e)
        (validate e) (register e) (detach e) (clock e).

(** The text of the error made at line 96 of the controller. *)
Definition reservedMessage : string :=
  "cluster name cannot be 'local', it is reserved".

(** What the detacher's answer means to [handleDeletion]: an error other than
    not-found stops the pass. *)
Definition detachBlocks (d : option error) : option error :=
  match d with
  | Some err => if IsNotFound err then None else Some err
  | None => None
  end.

(** The stored record carries the finalizer and no deletion mark. *)
Definition durablyGuarded (w : World) : Prop :=
  exists r, object w = Some r /\ hasFinalizer r = true /\ deletionMarked r = false.

(** The record as the Progressing announcement writes it. *)
Definition announced (r : ClusterRegistration) : ClusterRegistration :=
  setMessage (setPhase r ClusterRegistrationPhaseProgressing) "Registering cluster...".

(** The credential as it is handed to validation and registration. *)
Definition configured (r : ClusterRegistration) (loaded : multicluster.KubeClusterConfig)
  : multicluster.KubeClusterConfig :=
  multicluster.SetCreateNamespace
    (multicluster.SetClusterName loaded (resolveClusterName r))
    (if String.eqb (CreateNamespace (Spec r)) "" then "vela-system"
     else CreateNamespace (Spec r)).

End dispatch.

(* ------------------------------------------------------------------ *)
(** ** Sample records and environments                                  *)
(* ------------------------------------------------------------------ *)

Module samples.
Import apierrors v1beta1 clusterregistration dispatch.

(** [KubeClusterConfig.Validate] as the design document quotes it. *)
Definition validateNames (c : multicluster.KubeClusterConfig) : option error :=
  if String.eqb (multicluster.ClusterName c) "" then
    Some (New "ClusterName cannot be empty")
  else if String.eqb (multicluster.ClusterName c) multicluster.ClusterLocalName then
    Some (New "ClusterName cannot be `local`, reserved")
  else None.

Definition tokenConfig : multicluster.KubeClusterConfig :=
  multicluster.mkKubeClusterConfig "" ""
    (multicluster.mkCluster "https://prod-west.example:6443")
    (multicluster.mkAuthInfo "eyJhbGciOi" None).

Definition certConfig : multicluster.KubeClusterConfig :=
  multicluster.mkKubeClusterConfig "" ""
    (multicluster.mkCluster "https://prod-west.example:6443")
    (multicluster.mkAuthInfo "" None).

(** A parser that accepts exactly the document ["apiVersion: v1"]. *)
Definition parse (c : multicluster.KubeClusterConfig) (doc : option string)
  : error + multicluster.KubeClusterConfig :=
  match doc with
  | Some d => if String.eqb d "apiVersion: v1" then inr c
              else inl (New "couldn't get version/kind; json parse error")
  | None => inl (New "no such file or directory")
  end.

(** Every collaborator answers without error. *)
Definition fineEnv : Env :=
  mkEnv None (fun _ => None) (fun _ => None) (inr "/tmp/kubeconfig-1.yaml")
        (fun _ => None) (parse tokenConfig) validateNames (fun _ => None)
        (fun _ => None) (fun n => 1000 + Z.of_nat n).

Definition storeDown : error := mkError "etcdserver: request timed out" StatusReasonUnknown.
Definition conflict : error :=
  mkError "the object has been modified" StatusReasonConflict.

(** As [fineEnv], but registration fails. *)
Definition registerFailsEnv : Env :=
  mkEnv None (fun _ => None) (fun _ => None) (inr "/tmp/kubeconfig-1.yaml")
        (fun _ => None) (parse tokenConfig) validateNames (fun _ => Some storeDown)
        (fun _ => None) (fun n => 1000 + Z.of_nat n).

(** As [fineEnv], but every write to the API server fails. *)
Definition writesFailEnv : Env :=
  mkEnv None (fun _ => Some conflict) (fun _ => Some conflict)
        (inr "/tmp/kubeconfig-1.yaml")
        (fun _ => None) (parse tokenConfig) validateNames (fun _ => None)
        (fun _ => None) (fun n => 1000 + Z.of_nat n).

(** As [fineEnv], but detachment fails. *)
Definition detachFailsEnv : Env :=
  mkEnv None (fun _ => None) (fun _ => None) (inr "/tmp/kubeconfig-1.yaml")
        (fun _ => None) (parse tokenConfig) validateNames (fun _ => None)
        (fun _ => Some storeDown) (fun n => 1000 + Z.of_nat n).

Definition record (clusterName : string) (gen : Z) (del : option metav1.Time)
           (fins : list string) (st : ClusterRegistrationStatus)
  : ClusterRegistration :=
  mkClusterRegistration
    (metav1.mkObjectMeta "prod-west" "vela-system" gen del fins)
    (mkSpec clusterName "" "apiVersion: v1" "" [])
    st.

Definition guarded : list string := [clusterRegistrationFinalizer].

Definition readyStatus (gen : Z) : ClusterRegistrationStatus :=
  mkStatus ClusterRegistrationPhaseReady
    [condition.setMessage (condition.Available 501)
       "Cluster successfully registered and ready"]
    (Some (mkClusterInfo "https://prod-west.example:6443" "ServiceAccountToken" ""))
    "Cluster successfully registered" gen (Some 500).

Definition failedStatus (gen : Z) : ClusterRegistrationStatus :=
  mkStatus ClusterRegistrationPhaseFailed
    [condition.setMessage (condition.Unavailable 501) "Failed to register cluster: x"]
    None "Failed to register cluster: x" gen (Some 500).

Definition progressingStatus : ClusterRegistrationStatus :=
  mkStatus ClusterRegistrationPhaseProgressing [] None "Registering cluster..." 0 None.

Definition holding (r : ClusterRegistration) : World := mkWorld (Some r) [] O [].

End samples.

(* ------------------------------------------------------------------ *)
(** ** Vocabulary for whole passes and whole executions                 *)
(* ------------------------------------------------------------------ *)

Module coverage.
Import apierrors v1beta1 clusterregistration dispatch.



(** A property of the stored record, true when nothing is stored. *)
Definition storedSatisfies (P : ClusterRegistration -> Prop) (w : World) : Prop :=
  match object w with
  | None => True
  | Some o => P o
  end.

(** The phases the controller assigns (lines 104, 168, 220), and the empty
    phase of a record it has not written yet. *)
Definition phaseAssigned (o : ClusterRegistration) : Prop :=
  Phase (Status o) = ""
  \/ Phase (Status o) = ClusterRegistrationPhaseProgressing
  \/ Phase (Status o) = ClusterRegistrationPhaseReady
  \/ Phase (Status o) = ClusterRegistrationPhaseFailed.

Definition readyHasInfo (o : ClusterRegistration) : Prop :=
  Phase (Status o) = ClusterRegistrationPhaseReady -> ClusterInfo_ (Status o) <> None.

Definition observedBounded (o : ClusterRegistration) : Prop :=
  ObservedGeneration (Status o) <= Generation o.

(** The finalizers of other controllers, in order. *)
Definition otherFinalizers (o : ClusterRegistration) : list string :=
  filter (fun f => negb (String.eqb f clusterRegistrationFinalizer)) (Finalizers o).

(** What a pass may change of a stored record: the status and the
    controller's own finalizer. *)
Definition sameIdentity (r r' : ClusterRegistration) : Prop :=
  Spec r' = Spec r
  /\ Name r' = Name r
  /\ metav1.Namespace (ObjectMeta r') = metav1.Namespace (ObjectMeta r)
  /\ Generation r' = Generation r
  /\ DeletionTimestamp r' = DeletionTimestamp r
  /\ otherFinalizers r' = otherFinalizers r.

(** The namespace handed to the registrar (lines 138-142). *)
Definition resolveCreateNamespace (clusterReg : ClusterRegistration) : string :=
  let createNamespace := CreateNamespace (Spec clusterReg) in
  if String.eqb createNamespace "" then "vela-system" else createNamespace.

(** The record as lines 167-181 leave it, with the clock read at positions
    [ticks w] and [ticks w + 1]. *)
Definition readyRecord (e : Env) (r : ClusterRegistration)
           (loaded : multicluster.KubeClusterConfig) (w : World) : ClusterRegistration :=
  mkClusterRegistration (ObjectMeta r) (Spec r)
    (mkStatus ClusterRegistrationPhaseReady
       [condition.setMessage (condition.Available (clock e (S (ticks w))))
          "Cluster successfully registered and ready"]
       (Some (mkClusterInfo (multicluster.Server (multicluster.Cluster loaded))
                            (credentialTypeOf loaded) ""))
       "Cluster successfully registered" (Generation r)
       (Some (clock e (ticks w)))).

(** The record has to be registered again: it is Progressing, or it is Ready
    for an older generation. *)
Definition awaitsRegistration (r : ClusterRegistration) : Prop :=
  Phase (Status r) = ClusterRegistrationPhaseProgressing
  \/ (Phase (Status r) = ClusterRegistrationPhaseReady
      /\ ObservedGeneration (Status r) <> Generation r).

(** The collaborators serve record [r] without error: the client accepts
    every write, the temporary file [name] is created and written, the
    document of the spec parses to [loaded], validation and registration of
    the credential configured for [r] succeed, and detachment under the name
    of [r] is not refused. *)
Definition cooperative (e : Env) (r : ClusterRegistration) (name : string)
           (loaded : multicluster.KubeClusterConfig) : Prop :=
  get_err e = None
  /\ (forall o, update_err e o = None)
  /\ (forall o, status_update_err e o = None)
  /\ create_temp e = inr name
  /\ write_err e (Kubeconfig (Spec r)) = None
  /\ load_config e (Some (Kubeconfig (Spec r))) = inr loaded
  /\ validate e (configured r loaded) = None
  /\ register e (configured r loaded) = None
  /\ detachBlocks (detach e (resolveClusterName r)) = None.

(** A call of the detacher. *)
Definition isDetach (ev : Event) : bool :=
  match ev with EvDetach _ => true | _ => false end.

(** The record as the [Create] action stores it. *)
Definition applied (req ns : string) (spec : ClusterRegistrationSpec)
  : ClusterRegistration :=
  mkClusterRegistration (metav1.mkObjectMeta req ns 1 None []) spec emptyStatus.

End coverage.

(* ------------------------------------------------------------------ *)
(** ** Running the monadic code                                         *)
(* ------------------------------------------------------------------ *)

Import apierrors v1beta1 clusterregistration dispatch.

Lemma skipn_length_app (A : Type) (l l' : list A) :
  skipn (length l) (l ++ l') = l'.
Proof.
  induction l as [|x l IH]; simpl; auto.
Qed.

(** Case analysis on the answer the running code is waiting for. *)
Ltac head_case :=
  match goal with
  | |- context [runState (match ?x with _ => _ end) _] => destruct x eqn:?
  | |- context [runState (if ?x then _ else _) _] => destruct x eqn:?
  end.

Ltac run_step :=
  cbn -[String.eqb String.append Z.mul updateFailedStatus handleDeletion
       removeFinalizerAndUpdate registerWithFile].

Ltac run_all := repeat (run_step; try head_case).

Ltac unfold_controller :=
  unfold calls, outcome, after, evalState, execState, Reconcile, handleDeletion,
    removeFinalizerAndUpdate, registerWithFile, updateFailedStatus in *.

(** The calls of a pass, once the trace is written as the old trace followed
    by new entries. *)
Ltac calls_norm :=
  repeat rewrite <- app_assoc in *; simpl app in *;
  repeat rewrite skipn_length_app in *.

(** Closes the cases of a pass in which the call looked for was not made,
    and leaves in [Hin] the equation for the one that was. *)
Ltac find_call Hin :=
  simpl in Hin;
  repeat (destruct Hin as [Hin | Hin]; [try discriminate Hin |]);
  try contradiction.

Ltac pick_call := simpl; repeat (first [left; reflexivity | right]).

Ltac eval_eqb := cbn [String.eqb Ascii.eqb Bool.eqb andb negb orb].

(** Case analysis on whether a write released the record for deletion. *)
Ltac split_released :=
  repeat match goal with
         | |- context [if ?b then None else Some _] => destruct b eqn:?
         end.

Lemma trace_after (e : Env) (req : string) (w : World) :
  trace (after e req w) = (trace w ++ calls e req w)%list.
Proof.
  unfold_controller. run_all.
  all: calls_norm; reflexivity.
Qed.

Lemma updateFailedStatus_run (e : Env) (clusterReg : ClusterRegistration)
      (message : string) (w : World) :
  let o := failedRecord e clusterReg message w in
  runState (updateFailedStatus e clusterReg message) w
  = (o, mkWorld (match status_update_err e o with
                 | Some _ => object w
                 | None => match object w with
                           | Some stored => Some (setStatus stored (Status o))
                           | None => None
                           end
                 end)
                (files w) (S (S (ticks w))) (trace w ++ [EvStatusUpdate o])%list).
Proof.
  intros o. unfold updateFailedStatus. run_step.
  match goal with
  | |- context [EvStatusUpdate ?x] => assert (Ho : o = x)
  end.
  { subst o. unfold failedRecord, evalState, updateFailedStatus. run_all; reflexivity. }
  rewrite Ho. clear Ho o. run_all; reflexivity.
Qed.

Lemma failedRecord_eq (e : Env) (clusterReg : ClusterRegistration)
      (message : string) (w : World) :
  failedRecord e clusterReg message w
  = mkClusterRegistration (ObjectMeta clusterReg) (Spec clusterReg)
      (mkStatus ClusterRegistrationPhaseFailed
         [condition.setMessage (condition.Unavailable (clock e (S (ticks w)))) message]
         (ClusterInfo_ (Status clusterReg)) message (Generation clusterReg)
         (Some (clock e (ticks w)))).
Proof.
  unfold failedRecord, evalState, updateFailedStatus. run_all; reflexivity.
Qed.

(** C7. The failure projection sets phase Failed, the message as given, a
    condition list of exactly one condition, Unavailable (status False) with
    the message as its text, the observed generation and the reconcile time,
    and issues one status write of that record; what the
    write answers changes neither the record left in memory nor what the pass
    returns, which is never an error. *)
Theorem C7_failure_projection :
  forall (e : Env) (clusterReg : ClusterRegistration) (message : string) (w : World),
    let o := failedRecord e clusterReg message w in
    let w' := execState (updateFailedStatus e clusterReg message) w in
    Phase (Status o) = ClusterRegistrationPhaseFailed
    /\ Message (Status o) = message
    /\ Conditions (Status o)
       = [condition.setMessage (condition.Unavailable (clock e (S (ticks w)))) message]
    /\ map condition.Message (Conditions (Status o)) = [message]
    /\ map condition.Reason (Conditions (Status o)) = [condition.ReasonUnavailable]
    /\ map condition.Status (Conditions (Status o)) = [condition.ConditionFalse]
    /\ ObservedGeneration (Status o) = Generation clusterReg
    /\ LastReconcileTime (Status o) = Some (clock e (ticks w))
    /\ trace w' = (trace w ++ [EvStatusUpdate o])%list
    /\ (forall stored, object w = Some stored ->
          object w' = Some (match status_update_err e o with
                            | None => setStatus stored (Status o)
                            | Some _ => stored
                            end))
    /\ (forall f, failedRecord (withStatusWrites e f) clusterReg message w = o)
    /\ (forall req w0 o0,
          In (EvStatusUpdate o0) (calls e req w0) ->
          Phase (Status o0) = ClusterRegistrationPhaseFailed ->
          snd (outcome e req w0) = None
          /\ forall f, outcome (withStatusWrites e f) req w0 = outcome e req w0).
Proof.
  intros e clusterReg message w o w'. subst w'.
  unfold execState. rewrite updateFailedStatus_run. fold o. cbn [snd trace object].
  assert (Ho := failedRecord_eq e clusterReg message w). fold o in Ho.
  split; [rewrite Ho; reflexivity|].
  split; [rewrite Ho; reflexivity|].
  split; [rewrite Ho; reflexivity|].
  split; [rewrite Ho; reflexivity|].
  split; [rewrite Ho; reflexivity|].
  split; [rewrite Ho; reflexivity|].
  split; [rewrite Ho; reflexivity|].
  split; [rewrite Ho; reflexivity|].
  split; [reflexivity|].
  split; [intros stored Hs; rewrite Hs; destruct (status_update_err e o); reflexivity|].
  split; [intros f; subst o; rewrite !failedRecord_eq; reflexivity|].
  clear. intros req w0 o0 Hin Hph. split; revert Hin Hph; unfold_controller.
  - run_all. all: (calls_norm; intros Hin Hph;
      simpl in Hin; try reflexivity;
      repeat (destruct Hin as [Hin | Hin]; try discriminate Hin); try contradiction;
      inversion Hin; subst o0; discriminate Hph).
  - intros Hin Hph f. revert Hin Hph. unfold withStatusWrites.
    run_all. all: (calls_norm; intros Hin Hph;
      simpl in Hin; try reflexivity;
      repeat (destruct Hin as [Hin | Hin]; try discriminate Hin); try contradiction;
      try (inversion Hin; subst o0; discriminate Hph)).
Qed.

Lemma C7_failure_projection_witness :
  let r := samples.record "local" 1 None samples.guarded emptyStatus in
  let w := samples.holding r in
  let o := failedRecord samples.writesFailEnv r reservedMessage w in
  Phase (Status o) = ClusterRegistrationPhaseFailed
  /\ Message (Status o) = reservedMessage
  /\ map condition.Message (Conditions (Status o)) = [reservedMessage]
  /\ status_update_err samples.writesFailEnv o = Some samples.conflict
  /\ snd (outcome samples.writesFailEnv "prod-west" w) = None
  /\ outcome (withStatusWrites samples.writesFailEnv (fun _ => None)) "prod-west" w
     = outcome samples.writesFailEnv "prod-west" w.
Proof.
  intros r w o.
  destruct (C7_failure_projection samples.writesFailEnv r reservedMessage w)
    as (Hp & Hm & _ & Hcm & _ & _ & _ & _ & _ & _ & _ & Hout).
  destruct (Hout "prod-west" w o) as [Hnone Hsame].
  - vm_compute. right. left. reflexivity.
  - exact Hp.
  - split; [exact Hp|]. split; [exact Hm|]. split; [exact Hcm|]. split; [reflexivity|].
    split; [exact Hnone|].
    exact (Hsame (fun _ => None)).
Defined.

(* ------------------------------------------------------------------ *)
(** ** The fixed point                                                  *)
(* ------------------------------------------------------------------ *)

(** The whole run of a pass that is handed a Ready record whose observed
    generation is current. *)
Lemma Reconcile_fixed_point_run (e : Env) (req : string) (w : World)
      (r : ClusterRegistration) :
  delivers e w r ->
  deletionMarked r = false ->
  hasFinalizer r = true ->
  Phase (Status r) = ClusterRegistrationPhaseReady ->
  ObservedGeneration (Status r) = Generation r ->
  runState (Reconcile e req) w
  = ((ctrl.Result0, None),
     mkWorld (object w) (files w) (ticks w) (trace w ++ [EvGet])%list).
Proof.
  intros [Hget Hobj] Hdel Hfin Hph Hgen.
  unfold deletionMarked, hasFinalizer in *.
  unfold Reconcile. run_step. rewrite Hget, Hobj. run_step.
  rewrite Hdel, Hfin, Hph, Hgen, Z.eqb_refl. reflexivity.
Qed.

Lemma redeliver_fixed_point (e : Env) (req : string) (r : ClusterRegistration) (n : nat) :
  forall w,
    delivers e w r ->
    deletionMarked r = false ->
    hasFinalizer r = true ->
    Phase (Status r) = ClusterRegistrationPhaseReady ->
    ObservedGeneration (Status r) = Generation r ->
    redeliver e req n w
    = mkWorld (object w) (files w) (ticks w) (trace w ++ repeat EvGet n)%list.
Proof.
  induction n as [|n IH]; intros w Hd Hdel Hfin Hph Hgen; simpl.
  - rewrite app_nil_r. destruct w; reflexivity.
  - unfold after, execState.
    rewrite (@Reconcile_fixed_point_run e req w r Hd Hdel Hfin Hph Hgen). cbn [snd].
    rewrite IH; auto.
    cbn. rewrite <- app_assoc. reflexivity.
Qed.

(** C1. A pass that is handed a record that is Ready, whose observed
    generation is the current one, that carries the finalizer and no deletion
    mark, makes no call beyond the fetch of the record (no credential loading,
    no registration, no write), returns the zero result with no error, and
    leaves the stored record, status included, as it was; so does any number
    of redeliveries. *)
Theorem C1_ready_fixed_point :
  forall (e : Env) (req : string) (w : World) (r : ClusterRegistration),
    delivers e w r ->
    Phase (Status r) = ClusterRegistrationPhaseReady ->
    ObservedGeneration (Status r) = Generation r ->
    deletionMarked r = false ->
    hasFinalizer r = true ->
    calls e req w = [EvGet]
    /\ outcome e req w = (ctrl.Result0, None)
    /\ object (after e req w) = Some r
    /\ files (after e req w) = files w
    /\ forall n, object (redeliver e req n w) = Some r
                 /\ trace (redeliver e req n w) = (trace w ++ repeat EvGet n)%list.
Proof.
  intros e req w r Hd Hph Hgen Hdel Hfin.
  pose proof (@Reconcile_fixed_point_run e req w r Hd Hdel Hfin Hph Hgen) as Hrun.
  unfold calls, outcome, after, evalState, execState. rewrite Hrun. cbn [fst snd trace object files].
  rewrite skipn_length_app.
  destruct Hd as [Hg Ho].
  repeat (split; [first [reflexivity | exact Ho] |]).
  intros n. rewrite (@redeliver_fixed_point e req r n w); auto.
  split; auto.
Qed.

Lemma C1_ready_fixed_point_witness :
  let r := samples.record "prod-west" 3 None samples.guarded (samples.readyStatus 3) in
  calls samples.fineEnv "prod-west" (samples.holding r) = [EvGet]
  /\ outcome samples.fineEnv "prod-west" (samples.holding r) = (ctrl.Result0, None)
  /\ object (after samples.fineEnv "prod-west" (samples.holding r)) = Some r.
Proof.
  intros r.
  destruct (@C1_ready_fixed_point samples.fineEnv "prod-west" (samples.holding r) r)
    as (Hc & Ho & Hs & _).
  - split; reflexivity.
  - reflexivity.
  - reflexivity.
  - reflexivity.
  - reflexivity.
  - split; [exact Hc | split; [exact Ho | exact Hs]].
Defined.

(* ------------------------------------------------------------------ *)
(** ** The reserved name                                                *)
(* ------------------------------------------------------------------ *)

(** A record the user has just applied under the reserved name: no finalizer
    yet.  The pass installs the finalizer and asks for a requeue; the phase
    is not touched. *)
Lemma C3_reserved_name_counterexample :
  let r := samples.record "local" 1 None [] emptyStatus in
  let w := samples.holding r in
  resolveClusterName r = multicluster.ClusterLocalName
  /\ outcome samples.fineEnv "prod-west" w = (ctrl.mkResult true 0, None)
  /\ filter isStatusUpdate (calls samples.fineEnv "prod-west" w) = []
  /\ option_map (fun o => Phase (Status o)) (object (after samples.fineEnv "prod-west" w))
     = Some "".
Proof.
  cbv zeta. repeat split; reflexivity.
Qed.

(** C3, amended. A pass that is handed a record without deletion mark, with
    the finalizer, not at the Ready fixed point, whose resolved cluster name
    is the reserved one, projects Failed with the message naming the reserved
    value, makes no other call (no credential loading, no registration) and
    returns the zero result with no error. *)
Theorem C3_reserved_name_rejected :
  forall (e : Env) (req : string) (w : World) (r : ClusterRegistration),
    delivers e w r ->
    deletionMarked r = false ->
    hasFinalizer r = true ->
    ~ (Phase (Status r) = ClusterRegistrationPhaseReady
       /\ ObservedGeneration (Status r) = Generation r) ->
    resolveClusterName r = multicluster.ClusterLocalName ->
    let o := failedRecord e r reservedMessage w in
    calls e req w = [EvGet; EvStatusUpdate o]
    /\ Phase (Status o) = ClusterRegistrationPhaseFailed
    /\ Message (Status o) = reservedMessage
    /\ outcome e req w = (ctrl.Result0, None)
    /\ (status_update_err e o = None -> object (after e req w) = Some o).
Proof.
  intros e req w r [Hget Hobj] Hdel Hfin Hfix Hname o.
  unfold deletionMarked, hasFinalizer in *.
  assert (Hb : String.eqb (Phase (Status r)) ClusterRegistrationPhaseReady
               && (ObservedGeneration (Status r) =? Generation r) = false).
  { apply not_true_is_false. intros Ht. apply andb_true_iff in Ht.
    destruct Ht as [H1 H2]. apply Hfix. split.
    - apply String.eqb_eq; exact H1.
    - apply Z.eqb_eq; exact H2. }
  unfold calls, outcome, after, evalState, execState, Reconcile.
  run_step. rewrite Hget, Hobj. run_step. rewrite Hdel, Hfin. run_step.
  rewrite Hb, Hname, String.eqb_refl. run_step.
  rewrite updateFailedStatus_run. cbn [fst snd trace object]. calls_norm.
  subst o. rewrite !failedRecord_eq. cbn [ticks]. unfold reservedMessage.
  split; [reflexivity|].
  split; [reflexivity|].
  split; [reflexivity|].
  split; [reflexivity|].
  intros Hok. rewrite Hok. destruct r; reflexivity.
Qed.

Lemma C3_reserved_name_rejected_witness :
  let r := samples.record "local" 1 None samples.guarded emptyStatus in
  let w := samples.holding r in
  outcome samples.fineEnv "prod-west" w = (ctrl.Result0, None)
  /\ option_map (fun o => Phase (Status o)) (object (after samples.fineEnv "prod-west" w))
     = Some ClusterRegistrationPhaseFailed.
Proof.
  intros r w.
  destruct (@C3_reserved_name_rejected samples.fineEnv "prod-west" w r)
    as (_ & Hp & _ & Ho & Hs).
  - split; reflexivity.
  - reflexivity.
  - reflexivity.
  - intros [H _]. discriminate H.
  - reflexivity.
  - split; [exact Ho |]. rewrite Hs; [| reflexivity]. cbn [option_map]. rewrite Hp. reflexivity.
Defined.

(* ------------------------------------------------------------------ *)
(** ** The deletion path                                                *)
(* ------------------------------------------------------------------ *)

Lemma ContainsFinalizer_RemoveFinalizer (r : ClusterRegistration) (f : string) :
  controllerutil.ContainsFinalizer (controllerutil.RemoveFinalizer r f) f = false.
Proof.
  unfold controllerutil.ContainsFinalizer, controllerutil.RemoveFinalizer, Finalizers.
  cbn. induction (metav1.Finalizers (ObjectMeta r)) as [|x l IH]; cbn; auto.
  destruct (String.eqb x f) eqn:Hx; cbn; auto.
  rewrite String.eqb_sym, Hx. exact IH.
Qed.

Lemma ContainsFinalizer_AddFinalizer (r : ClusterRegistration) (f : string) :
  controllerutil.ContainsFinalizer (controllerutil.AddFinalizer r f) f = true.
Proof.
  unfold controllerutil.AddFinalizer.
  destruct (controllerutil.ContainsFinalizer r f) eqn:Hc; auto.
  unfold controllerutil.ContainsFinalizer, Finalizers. cbn.
  rewrite existsb_app. cbn. rewrite String.eqb_refl. apply orb_true_iff. right. reflexivity.
Qed.

Lemma released_unmarked (o : ClusterRegistration) :
  deletionMarked o = false -> released o = false.
Proof.
  unfold deletionMarked, released. intros H. rewrite H. reflexivity.
Qed.

Lemma released_marked (o : ClusterRegistration) :
  deletionMarked o = true ->
  released o = match Finalizers o with [] => true | _ :: _ => false end.
Proof.
  unfold deletionMarked, released. intros H. rewrite H. reflexivity.
Qed.

Lemma deletionMarked_AddFinalizer (r : ClusterRegistration) (f : string) :
  deletionMarked (controllerutil.AddFinalizer r f) = deletionMarked r.
Proof.
  unfold controllerutil.AddFinalizer.
  destruct (controllerutil.ContainsFinalizer r f); reflexivity.
Qed.

(** C4. On a deletion-marked record: without the finalizer the pass does
    nothing and returns success; with it the detacher is called with the
    resolved cluster name, which is the name of the spec, or the record's
    name when the spec gives none; an error of the detacher other than
    not-found is returned, with no write of any kind and the stored record
    (finalizer included) untouched; on success or not-found the record
    without the finalizer is written back with Update, whose answer is the
    pass's.  An accepted Update stores the record without the finalizer, or
    releases the record for deletion when no finalizer is left on it. *)
Theorem C4_deletion_path :
  forall (e : Env) (req : string) (w : World) (r : ClusterRegistration),
    delivers e w r ->
    deletionMarked r = true ->
    (hasFinalizer r = false ->
       calls e req w = [EvGet]
       /\ outcome e req w = (ctrl.Result0, None)
       /\ object (after e req w) = Some r)
    /\ (hasFinalizer r = true ->
          let name := resolveClusterName r in
          let r' := controllerutil.RemoveFinalizer r clusterRegistrationFinalizer in
          (ClusterName (Spec r) = "" -> name = Name r)
          /\ (ClusterName (Spec r) <> "" -> name = ClusterName (Spec r))
          /\ match detachBlocks (detach e name) with
             | Some err =>
                 calls e req w = [EvGet; EvDetach name]
                 /\ outcome e req w = (ctrl.Result0, Some err)
                 /\ object (after e req w) = Some r
             | None =>
                 calls e req w = [EvGet; EvDetach name; EvUpdate r']
                 /\ hasFinalizer r' = false
                 /\ outcome e req w = (ctrl.Result0, update_err e r')
                 /\ object (after e req w)
                    = match update_err e r' with
                      | Some _ => Some r
                      | None => match Finalizers r' with
                                | [] => None
                                | _ :: _ => Some r'
                                end
                      end
             end).
Proof.
  intros e req w r [Hget Hobj] Hdel.
  split; intros Hfin.
  - unfold deletionMarked, hasFinalizer in *.
    unfold calls, outcome, after, evalState, execState, Reconcile.
    run_step. rewrite Hget, Hobj. run_step. rewrite Hdel.
    unfold handleDeletion. rewrite Hfin. run_step. calls_norm.
    rewrite ?Hobj. auto.
  - set (name := resolveClusterName r).
    set (r' := controllerutil.RemoveFinalizer r clusterRegistrationFinalizer).
    assert (Hr' : controllerutil.ContainsFinalizer r' clusterRegistrationFinalizer = false)
      by apply ContainsFinalizer_RemoveFinalizer.
    assert (Hs : setStatus r' (Status r) = r') by (destruct r; reflexivity).
    assert (Hrel : released r' = match Finalizers r' with [] => true | _ :: _ => false end)
      by (apply released_marked; exact Hdel).
    split.
    { intros Hn. unfold name, resolveClusterName. rewrite Hn. reflexivity. }
    split.
    { intros Hn. unfold name, resolveClusterName. apply String.eqb_neq in Hn.
      rewrite Hn. reflexivity. }
    unfold deletionMarked, hasFinalizer in Hdel, Hfin |- *.
    unfold calls, outcome, after, evalState, execState, Reconcile.
    run_step. rewrite Hget, Hobj. run_step. rewrite Hdel.
    unfold handleDeletion. rewrite Hfin. run_step. fold name.
    unfold detachBlocks.
    destruct (detach e name) as [err|] eqn:Hd; run_step.
    + destruct (IsNotFound err) eqn:Hnf; run_step.
      * unfold removeFinalizerAndUpdate. run_step. fold r'.
        destruct (update_err e r') eqn:Hu; run_step; calls_norm; rewrite ?Hobj;
          run_step; rewrite ?Hs, ?Hrel;
          (split; [reflexivity|]; split; [exact Hr'|]; split; [reflexivity|]);
          [reflexivity |].
        change (filter (fun f : string => negb (String.eqb f clusterRegistrationFinalizer))
                  (Finalizers r)) with (Finalizers r').
        destruct (Finalizers r'); reflexivity.
      * calls_norm. rewrite ?Hobj. auto.
    + unfold removeFinalizerAndUpdate. run_step. fold r'.
      destruct (update_err e r') eqn:Hu; run_step; calls_norm; rewrite ?Hobj;
        run_step; rewrite ?Hs, ?Hrel;
        (split; [reflexivity|]; split; [exact Hr'|]; split; [reflexivity|]);
        [reflexivity |].
      change (filter (fun f : string => negb (String.eqb f clusterRegistrationFinalizer))
                (Finalizers r)) with (Finalizers r').
      destruct (Finalizers r'); reflexivity.
Qed.

Lemma C4_deletion_path_witness :
  let r := samples.record "prod-west-2" 2 (Some 700) samples.guarded (samples.readyStatus 2) in
  let r0 := samples.record "" 2 (Some 700) ("other/finalizer" :: samples.guarded)
              (samples.readyStatus 2) in
  (calls samples.detachFailsEnv "prod-west" (samples.holding r)
   = [EvGet; EvDetach "prod-west-2"]
   /\ outcome samples.detachFailsEnv "prod-west" (samples.holding r)
      = (ctrl.Result0, Some samples.storeDown)
   /\ object (after samples.detachFailsEnv "prod-west" (samples.holding r)) = Some r)
  /\ (calls samples.fineEnv "prod-west" (samples.holding r)
      = [EvGet; EvDetach "prod-west-2";
         EvUpdate (controllerutil.RemoveFinalizer r clusterRegistrationFinalizer)]
      /\ object (after samples.fineEnv "prod-west" (samples.holding r)) = None)
  /\ (calls samples.fineEnv "prod-west" (samples.holding r0)
      = [EvGet; EvDetach "prod-west";
         EvUpdate (controllerutil.RemoveFinalizer r0 clusterRegistrationFinalizer)]
      /\ option_map Finalizers (object (after samples.fineEnv "prod-west" (samples.holding r0)))
         = Some ["other/finalizer"]).
Proof.
  intros r r0.
  destruct (@C4_deletion_path samples.detachFailsEnv "prod-west" (samples.holding r) r)
    as [_ H1]; [split; reflexivity | reflexivity |].
  destruct (@C4_deletion_path samples.fineEnv "prod-west" (samples.holding r) r)
    as [_ H2]; [split; reflexivity | reflexivity |].
  destruct (@C4_deletion_path samples.fineEnv "prod-west" (samples.holding r0) r0)
    as [_ H3]; [split; reflexivity | reflexivity |].
  destruct (H1 eq_refl) as (_ & _ & H1').
  destruct (H2 eq_refl) as (_ & _ & (H2c & _ & _ & H2o)).
  destruct (H3 eq_refl) as (_ & _ & (H3c & _ & _ & H3o)).
  split; [exact H1'|].
  split; [split; [exact H2c | exact H2o]|].
  split; [exact H3c | rewrite H3o; reflexivity].
Defined.

(* ------------------------------------------------------------------ *)
(** ** Finalizer installation                                           *)
(* ------------------------------------------------------------------ *)

(** A pass that registers or loads credentials was handed a record that
    already carried the finalizer in the store. *)
Lemma registration_needs_finalizer (e : Env) (req : string) (w : World) (ev : Event) :
  In ev (calls e req w) ->
  isRegister ev || isLoad ev = true ->
  durablyGuarded w.
Proof.
  unfold durablyGuarded, hasFinalizer, deletionMarked.
  unfold_controller. run_all.
  all: calls_norm; intros Hin Hev; simpl in Hin;
    repeat (destruct Hin as [Hin | Hin];
            [subst ev; try discriminate Hev |]); try contradiction.
  all: eexists; split; [reflexivity | split; [apply negb_false_iff; assumption | assumption]].
Qed.

(** C8. A pass that is handed a record without deletion mark and without
    the finalizer adds the finalizer and writes the record back with Update,
    and makes no other call; when the write is accepted the pass returns a
    requeue and the stored record carries the finalizer.  And in every
    execution, whatever the user and the dispatcher did before, a pass in
    which the registrar is called (or credentials are loaded) started from a
    stored record that already carried the finalizer. *)
Theorem C8_finalizer_before_registration :
  (forall (e : Env) (req : string) (w : World) (r : ClusterRegistration),
      delivers e w r ->
      deletionMarked r = false ->
      hasFinalizer r = false ->
      let r' := controllerutil.AddFinalizer r clusterRegistrationFinalizer in
      calls e req w = [EvGet; EvUpdate r']
      /\ hasFinalizer r' = true
      /\ filter isRegister (calls e req w) = []
      /\ (update_err e r' = None ->
            outcome e req w = (ctrl.mkResult true 0, None)
            /\ object (after e req w) = Some r')
      /\ (forall err, update_err e r' = Some err ->
            outcome e req w = (ctrl.Result0, Some err)
            /\ object (after e req w) = Some r))
  /\ (forall (req : string) (acts : list Action) (w0 : World) (e : Env) (ev : Event),
        let w := run req acts w0 in
        In ev (calls e req w) ->
        isRegister ev || isLoad ev = true ->
        durablyGuarded w).
Proof.
  split.
  - intros e req w r [Hget Hobj] Hdel Hfin.
    set (r' := controllerutil.AddFinalizer r clusterRegistrationFinalizer).
    assert (Hr' : hasFinalizer r' = true) by apply ContainsFinalizer_AddFinalizer.
    assert (Hs : setStatus r' (Status r) = r').
    { unfold r', controllerutil.AddFinalizer. unfold hasFinalizer in Hfin.
      rewrite Hfin. destruct r; reflexivity. }
    assert (Hrel : released r' = false).
    { apply released_unmarked. unfold r'. rewrite deletionMarked_AddFinalizer. exact Hdel. }
    unfold deletionMarked, hasFinalizer in Hdel, Hfin.
    unfold calls, outcome, after, evalState, execState, Reconcile.
    run_step. rewrite Hget, Hobj. run_step. rewrite Hdel, Hfin. run_step. fold r'.
    destruct (update_err e r') as [err|] eqn:Hu; run_step; calls_norm;
      rewrite ?Hobj; run_step; rewrite ?Hs, ?Hrel.
    + split; [reflexivity|]. split; [exact Hr'|]. split; [reflexivity|].
      split; [intros Hn; discriminate Hn|].
      intros err' He. inversion He; subst err'. auto.
    + split; [reflexivity|]. split; [exact Hr'|]. split; [reflexivity|].
      split; [auto|]. intros err' He. discriminate He.
  - intros req acts w0 e ev w. apply registration_needs_finalizer.
Qed.

Lemma C8_finalizer_before_registration_witness :
  let r := samples.record "prod-west" 1 None [] emptyStatus in
  let w := samples.holding r in
  outcome samples.fineEnv "prod-west" w = (ctrl.mkResult true 0, None)
  /\ option_map hasFinalizer (object (after samples.fineEnv "prod-west" w)) = Some true
  /\ durablyGuarded
       (run "prod-west"
            [Create "vela-system" (Spec r); Deliver samples.fineEnv; Deliver samples.fineEnv]
            initial).
Proof.
  intros r w.
  destruct C8_finalizer_before_registration as [Ha Hb].
  destruct (Ha samples.fineEnv "prod-west" w r) as (_ & Hf & _ & Hok & _).
  - split; reflexivity.
  - reflexivity.
  - reflexivity.
  - destruct (Hok eq_refl) as [Ho Hs].
    split; [exact Ho|]. split; [rewrite Hs; cbn [option_map]; rewrite Hf; reflexivity|].
    apply (Hb "prod-west"
              [Create "vela-system" (Spec r); Deliver samples.fineEnv; Deliver samples.fineEnv]
              initial samples.fineEnv
              (EvLoad "/tmp/kubeconfig-1.yaml")).
    + vm_compute. right. right. right. right. left. reflexivity.
    + reflexivity.
Defined.

(* ------------------------------------------------------------------ *)
(** ** Registration: failure and success                                *)
(* ------------------------------------------------------------------ *)

(** A Progressing record whose registration is refused by the store: the
    pass writes phase Failed. *)
Lemma C2_registration_failure_counterexample :
  let r := samples.record "prod-west" 1 None samples.guarded samples.progressingStatus in
  let w := samples.holding r in
  let c := multicluster.SetCreateNamespace
             (multicluster.SetClusterName samples.tokenConfig "prod-west") "vela-system" in
  In (EvRegister c) (calls samples.registerFailsEnv "prod-west" w)
  /\ register samples.registerFailsEnv c = Some samples.storeDown
  /\ option_map (fun o => Phase (Status o))
                (object (after samples.registerFailsEnv "prod-west" w))
     = Some ClusterRegistrationPhaseFailed
  /\ ClusterRegistrationPhaseFailed <> ClusterRegistrationPhaseProgressing.
Proof.
  cbv zeta. split; [vm_compute; tauto|].
  split; [reflexivity|]. split; [reflexivity|]. discriminate.
Qed.

(** C2, amended. When the registrar fails, the pass projects Failed (message
    "Failed to register cluster: " followed by the error text, one Unavailable
    condition, observed generation set) and returns a requeue after a fixed
    30 seconds, with no error. *)
Theorem C2_registration_failure :
  forall (e : Env) (req : string) (w : World)
         (c : multicluster.KubeClusterConfig) (err : error),
    In (EvRegister c) (calls e req w) ->
    register e c = Some err ->
    exists r o t,
      object w = Some r
      /\ In (EvStatusUpdate o) (calls e req w)
      /\ Phase (Status o) = ClusterRegistrationPhaseFailed
      /\ Message (Status o) = "Failed to register cluster: " ++ Error err
      /\ Conditions (Status o)
         = [condition.setMessage (condition.Unavailable t)
              ("Failed to register cluster: " ++ Error err)]
      /\ ObservedGeneration (Status o) = Generation r
      /\ outcome e req w = (ctrl.mkResult false (30 * ctrl.Second), None)
      /\ (status_update_err e o = None ->
            option_map (fun s => Phase (Status s)) (object (after e req w))
            = Some ClusterRegistrationPhaseFailed).
Proof.
  intros e req w c err. unfold_controller. run_all.
  all: calls_norm; intros Hin Hreg; find_call Hin.
  all: inversion Hin; subst c; clear Hin.
  all: try congruence.
  all: match goal with
       | H : register _ ?k = Some ?x, H' : register _ ?k = Some ?y |- _ =>
           tryif constr_eq x y then fail
           else (assert (x = y) by congruence; subst x)
       end.
  all: eexists; eexists; eexists.
  all: split; [reflexivity|].
  all: split; [pick_call|].
  all: repeat (split; [reflexivity|]).
  all: intros Hok; try reflexivity.
  all: match goal with
       | H : status_update_err _ _ = Some _ |- _ =>
           exfalso; generalize (eq_trans (eq_sym H) Hok); discriminate
       end.
Qed.

Lemma C2_registration_failure_witness :
  let r := samples.record "prod-west" 1 None samples.guarded samples.progressingStatus in
  let w := samples.holding r in
  outcome samples.registerFailsEnv "prod-west" w
  = (ctrl.mkResult false 30000000000, None).
Proof.
  intros r w.
  destruct (@C2_registration_failure samples.registerFailsEnv "prod-west" w
              (multicluster.SetCreateNamespace
                 (multicluster.SetClusterName samples.tokenConfig "prod-west")
                 "vela-system")
              samples.storeDown)
    as (r0 & o & t & _ & _ & _ & _ & _ & _ & Hout & _).
  - vm_compute; tauto.
  - reflexivity.
  - exact Hout.
Defined.

Lemma credentialTypeOf_cases (c : multicluster.KubeClusterConfig) :
  let a := multicluster.AuthInfo c in
  (credentialTypeOf c = "ServiceAccountToken"
   <-> (multicluster.Token a <> "" \/ multicluster.Exec a <> None))
  /\ (credentialTypeOf c <> "ServiceAccountToken" -> credentialTypeOf c = "X509Certificate").
Proof.
  unfold credentialTypeOf. cbv zeta.
  destruct (multicluster.AuthInfo c) as [tok ex]. cbn [multicluster.Token multicluster.Exec].
  destruct tok as [|ch tok]; destruct ex as [p|]; cbn.
  - split; [split; [intros _; right; discriminate | reflexivity] | intros H; now elim H].
  - split; [split; [discriminate | intros [H|H]; now elim H] | reflexivity].
  - split; [split; [intros _; left; discriminate | reflexivity] | intros H; now elim H].
  - split; [split; [intros _; left; discriminate | reflexivity] | intros H; now elim H].
Qed.

(** C5. When the registrar succeeds, the pass issues a status write with
    phase Ready; clusterInfo holding the server URL of the loaded credential
    and the credential type, which is "ServiceAccountToken" exactly when the
    credential has a non-empty token or an exec provider and "X509Certificate"
    otherwise; the observed generation set to the record's generation; the
    reconcile time; and a condition list of exactly one Available condition. *)
Theorem C5_success_projection :
  forall (e : Env) (req : string) (w : World) (c : multicluster.KubeClusterConfig),
    In (EvRegister c) (calls e req w) ->
    register e c = None ->
    exists r o loaded t t',
      object w = Some r
      /\ load_config e (Some (Kubeconfig (Spec r))) = inr loaded
      /\ multicluster.Cluster c = multicluster.Cluster loaded
      /\ multicluster.AuthInfo c = multicluster.AuthInfo loaded
      /\ In (EvStatusUpdate o) (calls e req w)
      /\ Phase (Status o) = ClusterRegistrationPhaseReady
      /\ ClusterInfo_ (Status o)
         = Some (mkClusterInfo (multicluster.Server (multicluster.Cluster loaded))
                               (credentialTypeOf loaded) "")
      /\ (credentialTypeOf loaded = "ServiceAccountToken"
          <-> (multicluster.Token (multicluster.AuthInfo loaded) <> ""
               \/ multicluster.Exec (multicluster.AuthInfo loaded) <> None))
      /\ (credentialTypeOf loaded <> "ServiceAccountToken"
          -> credentialTypeOf loaded = "X509Certificate")
      /\ ObservedGeneration (Status o) = Generation r
      /\ LastReconcileTime (Status o) = Some t
      /\ Conditions (Status o)
         = [condition.setMessage (condition.Available t')
              "Cluster successfully registered and ready"]
      /\ (status_update_err e o = None ->
            option_map Status (object (after e req w)) = Some (Status o)).
Proof.
  intros e req w c. unfold_controller. run_all.
  all: calls_norm; intros Hin Hreg; find_call Hin.
  all: inversion Hin; subst c; clear Hin.
  all: try congruence.
  all: match goal with
       | Hf : object ?w0 = Some ?c0, H : load_config ?e0 _ = inr ?k |- _ =>
           rewrite String.eqb_refl in H; simpl in H;
           exists c0,
                  (setConditions
                     (setClusterInfo
                        (setLastReconcileTime
                           (setObservedGeneration
                              (setMessage (setPhase c0 ClusterRegistrationPhaseReady)
                                 "Cluster successfully registered")
                              (Generation c0))
                           (Some (clock e0 (ticks w0))))
                        (Some (mkClusterInfo
                                 (multicluster.Server (multicluster.Cluster k))
                                 (credentialTypeOf k) "")))
                     [condition.setMessage (condition.Available (clock e0 (S (ticks w0))))
                        "Cluster successfully registered and ready"]),
                  k, (clock e0 (ticks w0)), (clock e0 (S (ticks w0)));
           split; [reflexivity|]; split; [exact H|]
       end.
  all: split; [reflexivity|]; split; [reflexivity|].
  all: split; [pick_call|].
  all: split; [reflexivity|]; split; [reflexivity|].
  all: split; [apply credentialTypeOf_cases|]; split; [apply credentialTypeOf_cases|].
  all: split; [reflexivity|]; split; [reflexivity|]; split; [reflexivity|].
  all: intros Hok; try reflexivity.
  all: match goal with
       | H : status_update_err _ _ = Some _ |- _ =>
           exfalso; generalize (eq_trans (eq_sym H) Hok); discriminate
       end.
Qed.

Lemma C5_success_projection_witness :
  let r := samples.record "prod-west" 1 None samples.guarded samples.progressingStatus in
  let w := samples.holding r in
  option_map (fun o => (Phase (Status o), option_map Endpoint (ClusterInfo_ (Status o)),
                        option_map CredentialType (ClusterInfo_ (Status o))))
             (object (after samples.fineEnv "prod-west" w))
  = Some (ClusterRegistrationPhaseReady, Some "https://prod-west.example:6443",
          Some "ServiceAccountToken")
  /\ exists o, In (EvStatusUpdate o) (calls samples.fineEnv "prod-west" w)
               /\ Phase (Status o) = ClusterRegistrationPhaseReady.
Proof.
  intros r w. split; [reflexivity|].
  destruct (@C5_success_projection samples.fineEnv "prod-west" w
              (multicluster.SetCreateNamespace
                 (multicluster.SetClusterName samples.tokenConfig "prod-west")
                 "vela-system"))
    as (r0 & o & loaded & t & t' & _ & _ & _ & _ & Hin & Hph & _).
  - vm_compute; tauto.
  - reflexivity.
  - exists o. split; [exact Hin | exact Hph].
Defined.

(* ------------------------------------------------------------------ *)
(** ** The condition list                                               *)
(* ------------------------------------------------------------------ *)

Lemma after_conditionsBounded (e : Env) (req : string) (w : World) :
  conditionsBounded w -> conditionsBounded (after e req w).
Proof.
  unfold conditionsBounded. unfold_controller. run_all.
  all: split_released.
  all: intros Hb; cbn in *; try exact Hb; try lia; auto.
Qed.

Lemma act_conditionsBounded (req : string) (a : Action) (w : World) :
  conditionsBounded w -> conditionsBounded (act req a w).
Proof.
  destruct a as [e | ns spec | spec | t]; cbn [act].
  - apply after_conditionsBounded.
  - unfold conditionsBounded. destruct (object w) eqn:Ho; cbn; rewrite ?Ho; auto; lia.
  - unfold conditionsBounded. destruct (object w) eqn:Ho; cbn; rewrite ?Ho; auto; lia.
  - unfold conditionsBounded. destruct (object w) eqn:Ho; cbn; rewrite ?Ho; auto.
    split_released; cbn; auto.
Qed.

Lemma run_conditionsBounded (req : string) (acts : list Action) :
  forall w, conditionsBounded w -> conditionsBounded (run req acts w).
Proof.
  induction acts as [|a acts IH]; intros w Hb; cbn [run].
  - exact Hb.
  - apply IH. apply act_conditionsBounded. exact Hb.
Qed.

(** C6. A status write of a pass either carries the condition list the
    record was fetched with (the Progressing announcement), or a list of
    exactly one element: one Available condition when the phase written is
    Ready, one Unavailable condition when it is Failed.  Hence after any
    sequence of passes and user actions on a record created with an empty
    status, and from any stored record with at most one condition, the
    stored condition list has at most one element. *)
Theorem C6_conditions_bounded :
  (forall (e : Env) (req : string) (w : World) (o : ClusterRegistration),
      In (EvStatusUpdate o) (calls e req w) ->
      exists r,
        object w = Some r
        /\ ((Conditions (Status o) = Conditions (Status r)
             /\ Phase (Status o) = ClusterRegistrationPhaseProgressing)
            \/ (exists t msg,
                   Conditions (Status o) = [condition.setMessage (condition.Available t) msg]
                   /\ Phase (Status o) = ClusterRegistrationPhaseReady)
            \/ (exists t msg,
                   Conditions (Status o) = [condition.setMessage (condition.Unavailable t) msg]
                   /\ Phase (Status o) = ClusterRegistrationPhaseFailed)))
  /\ (forall (req : string) (acts : list Action),
        conditionsBounded (run req acts initial))
  /\ (forall (req : string) (acts : list Action) (w : World),
        conditionsBounded w -> conditionsBounded (run req acts w)).
Proof.
  split; [| split].
  - intros e req w o. unfold_controller. run_all.
    all: calls_norm; intros Hin; find_call Hin.
    all: inversion Hin; subst o; clear Hin.
    all: eexists; split; [reflexivity|].
    all: first [ left; split; reflexivity
               | right; left; eexists; eexists; split; reflexivity
               | right; right; eexists; eexists; split; reflexivity ].
  - intros req acts. apply run_conditionsBounded. exact I.
  - intros req acts w. apply run_conditionsBounded.
Qed.

Lemma C6_conditions_bounded_witness :
  let r := samples.record "prod-west" 4 None samples.guarded (samples.failedStatus 3) in
  conditionsBounded
    (run "prod-west"
         [Deliver samples.registerFailsEnv; Deliver samples.registerFailsEnv;
          Deliver samples.fineEnv; Deliver samples.fineEnv]
         (samples.holding r))
  /\ option_map (fun o => length (Conditions (Status o)))
       (object (run "prod-west"
                    [Deliver samples.registerFailsEnv; Deliver samples.registerFailsEnv;
                     Deliver samples.fineEnv; Deliver samples.fineEnv]
                    (samples.holding r)))
     = Some 1%nat.
Proof.
  intros r. split; [| reflexivity].
  destruct C6_conditions_bounded as (_ & _ & H).
  apply H. unfold conditionsBounded. cbn. lia.
Defined.

(* ------------------------------------------------------------------ *)
(** ** What a Failed projection leaves alone                            *)
(* ------------------------------------------------------------------ *)

(** C9. The failure projection leaves clusterInfo, the spec and the
    metadata of the record as they were.  So a pass that projects Failed on
    a record fetched with some clusterInfo (a record that was Ready for an
    earlier generation) writes a status with phase Failed and that same
    clusterInfo, and the stored record keeps it. *)
Theorem C9_failure_keeps_clusterInfo :
  (forall (e : Env) (clusterReg : ClusterRegistration) (message : string) (w : World),
      let o := failedRecord e clusterReg message w in
      ClusterInfo_ (Status o) = ClusterInfo_ (Status clusterReg)
      /\ Spec o = Spec clusterReg
      /\ ObjectMeta o = ObjectMeta clusterReg)
  /\ (forall (e : Env) (req : string) (w : World) (r o : ClusterRegistration),
        delivers e w r ->
        In (EvStatusUpdate o) (calls e req w) ->
        Phase (Status o) = ClusterRegistrationPhaseFailed ->
        ClusterInfo_ (Status o) = ClusterInfo_ (Status r)
        /\ option_map (fun s => ClusterInfo_ (Status s)) (object (after e req w))
           = Some (ClusterInfo_ (Status r))
        /\ (status_update_err e o = None ->
              option_map (fun s => Phase (Status s)) (object (after e req w))
              = Some ClusterRegistrationPhaseFailed)).
Proof.
  split.
  - intros e clusterReg message w o. subst o. rewrite failedRecord_eq.
    split; [reflexivity|]. split; reflexivity.
  - intros e req w r o [Hget Hobj]. revert Hget Hobj. unfold_controller. run_all.
    all: calls_norm; intros Hget Hobj Hin Hph; find_call Hin.
    all: inversion Hin; subst o; clear Hin; try discriminate Hph.
    all: inversion Hobj; subst; clear Hobj.
    all: split; [reflexivity|]; split; [reflexivity|].
    all: intros Hok; try reflexivity.
    all: match goal with
         | H : status_update_err _ _ = Some _ |- _ =>
             exfalso; generalize (eq_trans (eq_sym H) Hok); discriminate
         end.
Qed.

Lemma C9_failure_keeps_clusterInfo_witness :
  let r := samples.record "local" 4 None samples.guarded (samples.readyStatus 3) in
  let w := samples.holding r in
  option_map (fun s => (Phase (Status s), ClusterInfo_ (Status s)))
             (object (after samples.fineEnv "prod-west" w))
  = Some (ClusterRegistrationPhaseFailed,
          Some (mkClusterInfo "https://prod-west.example:6443" "ServiceAccountToken" "")).
Proof.
  intros r w.
  destruct C9_failure_keeps_clusterInfo as [_ H].
  destruct (H samples.fineEnv "prod-west" w r
              (failedRecord samples.fineEnv r reservedMessage w))
    as (_ & Hci & Hp).
  - split; reflexivity.
  - vm_compute. right. left. reflexivity.
  - reflexivity.
  - specialize (Hp eq_refl).
    destruct (object (after samples.fineEnv "prod-west" w)) as [s|];
      [| discriminate Hp].
    cbn [option_map] in *. injection Hci as Hci. injection Hp as Hp.
    rewrite Hci, Hp. reflexivity.
Defined.

(* ------------------------------------------------------------------ *)
(** ** Redelivery of a Failed record                                    *)
(* ------------------------------------------------------------------ *)

(** A pass on a Progressing record loads the credential once the temporary
    file is written, and calls the registrar once the credential is loaded
    and validated. *)
Lemma progressing_pass (e : Env) (req : string) (w : World) (r : ClusterRegistration)
      (name : string) :
  delivers e w r ->
  deletionMarked r = false ->
  hasFinalizer r = true ->
  Phase (Status r) = ClusterRegistrationPhaseProgressing ->
  resolveClusterName r <> multicluster.ClusterLocalName ->
  create_temp e = inr name ->
  write_err e (Kubeconfig (Spec r)) = None ->
  In EvCreateTemp (calls e req w)
  /\ In (EvLoad name) (calls e req w)
  /\ forall loaded,
       load_config e (Some (Kubeconfig (Spec r))) = inr loaded ->
       validate e (configured r loaded) = None ->
       In (EvRegister (configured r loaded)) (calls e req w).
Proof.
  intros [Hget Hobj] Hdel Hfin Hph Hname Htmp Hwr.
  unfold deletionMarked, hasFinalizer in *.
  apply String.eqb_neq in Hname.
  unfold calls, after, execState, Reconcile.
  run_step. rewrite Hget, Hobj. run_step. rewrite Hdel, Hfin. run_step.
  rewrite Hph, Hname. unfold ClusterRegistrationPhaseProgressing, ClusterRegistrationPhaseReady.
  eval_eqb. run_step. rewrite Htmp. run_step.
  unfold registerWithFile. run_step. rewrite Hwr. run_step.
  rewrite !String.eqb_refl. simpl String.append.
  unfold updateFailedStatus, configured.
  destruct (load_config e (Some (Kubeconfig (Spec r)))) as [lerr | k] eqn:Hload.
  - run_all; calls_norm.
    all: split; [pick_call|]; split; [pick_call|]; intros loaded Hl; discriminate Hl.
  - run_all; calls_norm.
    all: split; [pick_call|]; split; [pick_call|]; intros loaded Hl Hv;
      injection Hl as Hl; subst loaded; try congruence; pick_call.
Qed.

(** A Failed record whose observed generation is current, redelivered with
    nothing changed: the pass announces Progressing and returns, without
    loading credentials or calling the registrar. *)
Lemma C10_failed_redelivery_counterexample :
  let r := samples.record "prod-west" 3 None samples.guarded (samples.failedStatus 3) in
  let w := samples.holding r in
  Phase (Status r) = ClusterRegistrationPhaseFailed
  /\ ObservedGeneration (Status r) = Generation r
  /\ calls samples.fineEnv "prod-west" w = [EvGet; EvStatusUpdate (announced r)]
  /\ filter isLoad (calls samples.fineEnv "prod-west" w) = []
  /\ filter isRegister (calls samples.fineEnv "prod-west" w) = [].
Proof.
  cbv zeta. repeat split; reflexivity.
Qed.

(** C10, amended. The short-circuit needs phase Ready.  A pass that is
    handed a Failed record whose observed generation is current (finalizer
    present, no deletion mark) and whose resolved cluster name is not the
    reserved one announces Progressing with a status write and returns; once
    that write is accepted, the next pass on the record creates the temporary
    file, loads the credential when the file is written, and calls the
    registrar when the credential is loaded and validated, although the spec
    has not changed. *)
Theorem C10_failed_redelivery :
  forall (e : Env) (req : string) (w : World) (r : ClusterRegistration),
    delivers e w r ->
    Phase (Status r) = ClusterRegistrationPhaseFailed ->
    ObservedGeneration (Status r) = Generation r ->
    hasFinalizer r = true ->
    deletionMarked r = false ->
    resolveClusterName r <> multicluster.ClusterLocalName ->
    calls e req w = [EvGet; EvStatusUpdate (announced r)]
    /\ outcome e req w = (ctrl.Result0, status_update_err e (announced r))
    /\ (status_update_err e (announced r) = None ->
          object (after e req w) = Some (announced r)
          /\ forall (e2 : Env) (name : string),
               get_err e2 = None ->
               create_temp e2 = inr name ->
               write_err e2 (Kubeconfig (Spec r)) = None ->
               In EvCreateTemp (calls e2 req (after e req w))
               /\ In (EvLoad name) (calls e2 req (after e req w))
               /\ forall loaded,
                    load_config e2 (Some (Kubeconfig (Spec r))) = inr loaded ->
                    validate e2 (configured r loaded) = None ->
                    In (EvRegister (configured r loaded)) (calls e2 req (after e req w))).
Proof.
  intros e req w r [Hget Hobj] Hph Hgen Hfin Hdel Hname.
  assert (Hrun : runState (Reconcile e req) w
                 = ((ctrl.Result0, status_update_err e (announced r)),
                    mkWorld (match status_update_err e (announced r) with
                             | None => Some (announced r)
                             | Some _ => Some r
                             end)
                            (files w) (ticks w)
                            (trace w ++ [EvGet; EvStatusUpdate (announced r)])%list)).
  { unfold deletionMarked, hasFinalizer in *.
    pose proof Hname as Hn. apply String.eqb_neq in Hn.
    unfold Reconcile.
    run_step. rewrite Hget, Hobj. run_step. rewrite Hdel, Hfin. run_step.
    rewrite Hph, Hn.
    unfold ClusterRegistrationPhaseFailed, ClusterRegistrationPhaseProgressing,
      ClusterRegistrationPhaseReady.
    eval_eqb. run_step. fold ClusterRegistrationPhaseProgressing. fold (announced r).
    destruct (status_update_err e (announced r)) eqn:Hs; run_step;
      rewrite <- app_assoc; reflexivity. }
  unfold calls, outcome, after, evalState, execState. rewrite Hrun.
  cbn [fst snd trace object]. rewrite skipn_length_app.
  split; [reflexivity|]. split; [reflexivity|].
  intros Hok. rewrite Hok. split; [reflexivity|].
  intros e2 name Hget2 Htmp Hwr.
  set (w1 := mkWorld (Some (announced r)) (files w) (ticks w)
                     (trace w ++ [EvGet; EvStatusUpdate (announced r)])%list).
  assert (Hp := @progressing_pass e2 req w1 (announced r) name).
  assert (Hres : resolveClusterName (announced r) = resolveClusterName r) by reflexivity.
  assert (Hcfg : forall l, configured (announced r) l = configured r l) by reflexivity.
  assert (Hd : delivers e2 w1 (announced r)) by (split; [exact Hget2 | reflexivity]).
  destruct (Hp Hd Hdel Hfin eq_refl Hname Htmp Hwr) as (H1 & H2 & H3).
  split; [exact H1|]. split; [exact H2|].
  intros loaded Hl Hv. rewrite <- Hcfg. apply H3; [exact Hl | rewrite Hcfg; exact Hv].
Qed.

Lemma C10_failed_redelivery_witness :
  let r := samples.record "prod-west" 3 None samples.guarded (samples.failedStatus 3) in
  let w := samples.holding r in
  calls samples.fineEnv "prod-west" w = [EvGet; EvStatusUpdate (announced r)]
  /\ In (EvRegister (configured r samples.tokenConfig))
        (calls samples.fineEnv "prod-west" (after samples.fineEnv "prod-west" w)).
Proof.
  intros r w.
  destruct (@C10_failed_redelivery samples.fineEnv "prod-west" w r)
    as (Hc & _ & Hn).
  - split; reflexivity.
  - reflexivity.
  - reflexivity.
  - reflexivity.
  - reflexivity.
  - discriminate.
  - split; [exact Hc|].
    destruct (Hn eq_refl) as [_ H2].
    destruct (H2 samples.fineEnv "/tmp/kubeconfig-1.yaml" eq_refl eq_refl eq_refl)
      as (_ & _ & H3).
    apply H3; reflexivity.
Defined.

(* ------------------------------------------------------------------ *)
(** ** Whole passes: the ways through [Reconcile]                       *)
(* ------------------------------------------------------------------ *)

Import coverage.

Lemma removeFile_cons_same (name c : string) (fs : list (string * string)) :
  removeFile name ((name, c) :: fs) = removeFile name fs.
Proof.
  unfold removeFile. cbn. rewrite String.eqb_refl. reflexivity.
Qed.

Lemma removeFile_idem (name : string) (fs : list (string * string)) :
  removeFile name (removeFile name fs) = removeFile name fs.
Proof.
  unfold removeFile. induction fs as [|[n c] fs IH]; cbn; auto.
  destruct (String.eqb n name) eqn:Hn; cbn; rewrite ?Hn; cbn; rewrite IH; reflexivity.
Qed.

Lemma readFile_removeFile (name : string) (fs : list (string * string)) :
  readFile name (removeFile name fs) = None.
Proof.
  unfold removeFile. induction fs as [|[n c] fs IH]; cbn; auto.
  destruct (String.eqb n name) eqn:Hn; cbn; rewrite ?Hn; exact IH.
Qed.

Lemma readFile_removeFile_other (name n : string) (fs : list (string * string)) :
  n <> name -> readFile n (removeFile name fs) = readFile n fs.
Proof.
  intros Hne. unfold removeFile. induction fs as [|[m c] fs IH]; cbn; auto.
  destruct (String.eqb m name) eqn:Hm; cbn.
  - apply String.eqb_eq in Hm. subst m.
    destruct (String.eqb name n) eqn:Hn; [apply String.eqb_eq in Hn; congruence | exact IH].
  - destruct (String.eqb m n); [reflexivity | exact IH].
Qed.

(** The finalizer is missing: it is added and the record written back. *)
Lemma Reconcile_install_run (e : Env) (req : string) (w : World)
      (r : ClusterRegistration) :
  delivers e w r ->
  deletionMarked r = false ->
  hasFinalizer r = false ->
  let r' := controllerutil.AddFinalizer r clusterRegistrationFinalizer in
  runState (Reconcile e req) w
  = (match update_err e r' with
     | Some err => (ctrl.Result0, Some err)
     | None => (ctrl.mkResult true 0, None)
     end,
     mkWorld (match update_err e r' with Some _ => Some r | None => Some r' end)
             (files w) (ticks w) (trace w ++ [EvGet; EvUpdate r'])%list).
Proof.
  intros [Hget Hobj] Hdel Hfin r'.
  assert (Hs : setStatus r' (Status r) = r').
  { unfold r', controllerutil.AddFinalizer. unfold hasFinalizer in Hfin.
    rewrite Hfin. destruct r; reflexivity. }
  assert (Hrel : released r' = false).
  { apply released_unmarked. unfold r'. rewrite deletionMarked_AddFinalizer. exact Hdel. }
  unfold deletionMarked, hasFinalizer in Hdel, Hfin.
  unfold Reconcile.
  run_step. rewrite Hget, Hobj. run_step. rewrite Hdel, Hfin. run_step. fold r'.
  destruct (update_err e r') as [err|] eqn:Hu; run_step;
    rewrite <- app_assoc, ?Hobj; run_step; rewrite ?Hs, ?Hrel; reflexivity.
Qed.

(** The phase is neither Progressing nor Ready: Progressing is announced. *)
Lemma Reconcile_announce_run (e : Env) (req : string) (w : World)
      (r : ClusterRegistration) :
  delivers e w r ->
  deletionMarked r = false ->
  hasFinalizer r = true ->
  Phase (Status r) <> ClusterRegistrationPhaseProgressing ->
  Phase (Status r) <> ClusterRegistrationPhaseReady ->
  resolveClusterName r <> multicluster.ClusterLocalName ->
  runState (Reconcile e req) w
  = ((ctrl.Result0, status_update_err e (announced r)),
     mkWorld (match status_update_err e (announced r) with
              | None => Some (announced r)
              | Some _ => Some r
              end)
             (files w) (ticks w)
             (trace w ++ [EvGet; EvStatusUpdate (announced r)])%list).
Proof.
  intros [Hget Hobj] Hdel Hfin Hp Hr Hname.
  unfold deletionMarked, hasFinalizer in *.
  apply String.eqb_neq in Hp, Hr, Hname.
  unfold Reconcile.
  run_step. rewrite Hget, Hobj. run_step. rewrite Hdel, Hfin. run_step.
  rewrite Hr, Hp, Hname. run_step. fold (announced r).
  destruct (status_update_err e (announced r)) eqn:Hs; run_step;
    rewrite <- app_assoc; reflexivity.
Qed.

(** Everything succeeds on a record that awaits registration: the whole
    pass, up to the Ready write. *)
Lemma Reconcile_register_run (e : Env) (req : string) (w : World)
      (r : ClusterRegistration) (name : string)
      (loaded : multicluster.KubeClusterConfig) :
  delivers e w r ->
  deletionMarked r = false ->
  hasFinalizer r = true ->
  awaitsRegistration r ->
  resolveClusterName r <> multicluster.ClusterLocalName ->
  create_temp e = inr name ->
  write_err e (Kubeconfig (Spec r)) = None ->
  load_config e (Some (Kubeconfig (Spec r))) = inr loaded ->
  validate e (configured r loaded) = None ->
  register e (configured r loaded) = None ->
  let o := readyRecord e r loaded w in
  runState (Reconcile e req) w
  = ((ctrl.Result0, status_update_err e o),
     mkWorld (match status_update_err e o with None => Some o | Some _ => Some r end)
             (removeFile name (files w)) (S (S (ticks w)))
             (trace w ++ [EvGet; EvCreateTemp; EvWrite name (Kubeconfig (Spec r));
                          EvClose name; EvLoad name; EvValidate (configured r loaded);
                          EvRegister (configured r loaded); EvStatusUpdate o;
                          EvRemove name])%list).
Proof.
  intros [Hget Hobj] Hdel Hfin Hawait Hname Htmp Hwr Hload Hval Hreg o.
  unfold deletionMarked, hasFinalizer in *.
  apply String.eqb_neq in Hname.
  assert (Hfix : String.eqb (Phase (Status r)) ClusterRegistrationPhaseReady
                 && (ObservedGeneration (Status r) =? Generation r) = false).
  { destruct Hawait as [Hp | [Hp Hg]]; rewrite Hp.
    - reflexivity.
    - apply Z.eqb_neq in Hg. rewrite Hg. apply andb_false_r. }
  assert (Hann : negb (String.eqb (Phase (Status r)) ClusterRegistrationPhaseProgressing)
                 && negb (String.eqb (Phase (Status r)) ClusterRegistrationPhaseReady)
                 = false).
  { destruct Hawait as [Hp | [Hp Hg]]; rewrite Hp; reflexivity. }
  unfold Reconcile.
  run_step. rewrite Hget, Hobj. run_step. rewrite Hdel, Hfin. run_step.
  rewrite Hfix, Hname, Hann. run_step. rewrite Htmp. run_step.
  unfold registerWithFile. run_step. rewrite Hwr. run_step.
  rewrite !String.eqb_refl. simpl String.append. rewrite Hload. run_step.
  fold (configured r loaded). rewrite Hval. run_step. rewrite Hreg. run_step.
  change (setConditions _ _) with o.
  assert (Hf3 : filter (fun f : string * string => negb (String.eqb (fst f) name))
                 (filter (fun f : string * string => negb (String.eqb (fst f) name))
                    (filter (fun f : string * string => negb (String.eqb (fst f) name))
                       (files w)))
               = removeFile name (files w)).
  { change (removeFile name (removeFile name (removeFile name (files w)))
            = removeFile name (files w)).
    rewrite !removeFile_idem. reflexivity. }
  destruct (status_update_err e o) eqn:Hs; run_step; rewrite ?String.eqb_refl; run_step;
    repeat rewrite <- app_assoc; cbn [app]; rewrite Hf3; reflexivity.
Qed.

(** A deletion-marked record with the finalizer whose detachment is not
    refused: the finalizer is taken off and the record written back; an
    accepted write of a record left without finalizer releases it. *)
Lemma Reconcile_detach_run (e : Env) (req : string) (w : World)
      (r : ClusterRegistration) :
  delivers e w r ->
  deletionMarked r = true ->
  hasFinalizer r = true ->
  detachBlocks (detach e (resolveClusterName r)) = None ->
  let r' := controllerutil.RemoveFinalizer r clusterRegistrationFinalizer in
  runState (Reconcile e req) w
  = ((ctrl.Result0, update_err e r'),
     mkWorld (match update_err e r' with
              | Some _ => Some r
              | None => if released r' then None else Some r'
              end)
             (files w) (ticks w)
             (trace w ++ [EvGet; EvDetach (resolveClusterName r); EvUpdate r'])%list).
Proof.
  intros [Hget Hobj] Hdel Hfin Hdet r'.
  assert (Hs : setStatus r' (Status r) = r') by (destruct r; reflexivity).
  unfold deletionMarked, hasFinalizer in *.
  unfold Reconcile.
  run_step. rewrite Hget, Hobj. run_step. rewrite Hdel.
  unfold handleDeletion. rewrite Hfin. run_step.
  unfold detachBlocks in Hdet.
  destruct (detach e (resolveClusterName r)) as [err|] eqn:Hd; run_step.
  - destruct (IsNotFound err) eqn:Hnf; [| discriminate Hdet]. run_step.
    unfold removeFinalizerAndUpdate. run_step. fold r'.
    destruct (update_err e r') eqn:Hu; run_step; repeat rewrite <- app_assoc;
      rewrite ?Hobj; run_step; rewrite ?Hs; reflexivity.
  - unfold removeFinalizerAndUpdate. run_step. fold r'.
    destruct (update_err e r') eqn:Hu; run_step; repeat rewrite <- app_assoc;
      rewrite ?Hobj; run_step; rewrite ?Hs; reflexivity.
Qed.

(** Nothing is stored under the key: the pass ends at the fetch. *)
Lemma Reconcile_absent_run (e : Env) (req : string) (w : World) :
  get_err e = None ->
  object w = None ->
  runState (Reconcile e req) w
  = ((ctrl.Result0, None),
     mkWorld None (files w) (ticks w) (trace w ++ [EvGet])%list).
Proof.
  intros Hget Hobj. unfold Reconcile.
  run_step. rewrite Hget, Hobj. reflexivity.
Qed.

Lemma released_guarded (o : ClusterRegistration) :
  hasFinalizer o = true -> released o = false.
Proof.
  unfold hasFinalizer, controllerutil.ContainsFinalizer, released.
  destruct (Finalizers o); cbn; [discriminate | intros _; apply andb_false_r].
Qed.

(** A deletion-marked record without the finalizer: nothing to do. *)
Lemma Reconcile_deleted_run (e : Env) (req : string) (w : World)
      (r : ClusterRegistration) :
  delivers e w r ->
  deletionMarked r = true ->
  hasFinalizer r = false ->
  runState (Reconcile e req) w
  = ((ctrl.Result0, None),
     mkWorld (object w) (files w) (ticks w) (trace w ++ [EvGet])%list).
Proof.
  intros [Hget Hobj] Hdel Hfin.
  unfold deletionMarked, hasFinalizer in *.
  unfold Reconcile.
  run_step. rewrite Hget, Hobj. run_step. rewrite Hdel.
  unfold handleDeletion. rewrite Hfin. reflexivity.
Qed.

(** The world after a record is applied and delivered three times to
    cooperative collaborators. *)
Lemma run_to_ready (e : Env) (req ns : string) (spec : ClusterRegistrationSpec)
      (name : string) (loaded : multicluster.KubeClusterConfig) :
  cooperative e (applied req ns spec) name loaded ->
  resolveClusterName (applied req ns spec) <> multicluster.ClusterLocalName ->
  let r1 := controllerutil.AddFinalizer (applied req ns spec) clusterRegistrationFinalizer in
  let w2 := mkWorld (Some (announced r1)) [] O
                    [EvGet; EvUpdate r1; EvGet; EvStatusUpdate (announced r1)] in
  let o := readyRecord e (announced r1) loaded w2 in
  run req [Create ns spec; Deliver e; Deliver e; Deliver e] initial
  = mkWorld (Some o) [] 2%nat
      [EvGet; EvUpdate r1; EvGet; EvStatusUpdate (announced r1);
       EvGet; EvCreateTemp; EvWrite name (Kubeconfig spec); EvClose name; EvLoad name;
       EvValidate (configured r1 loaded); EvRegister (configured r1 loaded);
       EvStatusUpdate o; EvRemove name].
Proof.
  intros (Hget & Hupd & Hst & Htmp & Hwr & Hload & Hval & Hreg & Hdet) Hname r1 w2 o.
  cbn [run act]. unfold initial at 1. cbn [object withObject files ticks trace].
  fold (applied req ns spec).
  unfold after at 3. unfold execState.
  rewrite (@Reconcile_install_run e req _ (applied req ns spec));
    [| split; [exact Hget | reflexivity] | reflexivity | reflexivity].
  fold r1. rewrite Hupd. cbn [snd files ticks trace app].
  unfold after at 2. unfold execState.
  rewrite (@Reconcile_announce_run e req _ r1);
    [| split; [exact Hget | reflexivity] | reflexivity | reflexivity
     | discriminate | discriminate | exact Hname].
  rewrite Hst. cbn [snd files ticks trace app].
  unfold after. unfold execState.
  rewrite (@Reconcile_register_run e req _ (announced r1) name loaded);
    [| split; [exact Hget | reflexivity] | reflexivity | reflexivity
     | left; reflexivity | exact Hname | exact Htmp | exact Hwr | exact Hload
     | exact Hval | exact Hreg].
  rewrite Hst. reflexivity.
Qed.

(* ------------------------------------------------------------------ *)
(** ** Fetch, announcement, registration                                *)
(* ------------------------------------------------------------------ *)

(** X1. When the record is gone, or the fetch answers not-found, the pass
    ends at once with success; any other fetch error is returned.  Either
    way the fetch is the only call and nothing stored changes. *)
Theorem X1_fetch_failure :
  forall (e : Env) (req : string) (w : World),
    (get_err e = None -> object w = None ->
       calls e req w = [EvGet] /\ outcome e req w = (ctrl.Result0, None)
       /\ object (after e req w) = None)
    /\ (forall err, get_err e = Some err ->
          calls e req w = [EvGet]
          /\ outcome e req w
             = (ctrl.Result0, if IsNotFound err then None else Some err)
          /\ object (after e req w) = object w).
Proof.
  intros e req w. unfold calls, outcome, after, evalState, execState, Reconcile.
  split.
  - intros Hget Hobj. run_step. rewrite Hget, Hobj. run_step.
    rewrite skipn_length_app. auto.
  - intros err Hget. run_step. rewrite Hget. run_step.
    destruct (IsNotFound err); run_step; rewrite skipn_length_app; auto.
Qed.

Lemma X1_fetch_failure_witness :
  calls samples.fineEnv "prod-west" initial = [EvGet]
  /\ outcome samples.fineEnv "prod-west" initial = (ctrl.Result0, None).
Proof.
  destruct (X1_fetch_failure samples.fineEnv "prod-west" initial) as [H _].
  destruct (H eq_refl eq_refl) as (Hc & Ho & _).
  split; [exact Hc | exact Ho].
Defined.

(** X2. A record that carries the finalizer and no deletion mark, whose
    phase is anything but Progressing or Ready (empty on a new record,
    Pending, Failed, any other string) and whose name is not reserved: the
    pass writes phase Progressing with the message "Registering cluster...",
    leaves every other status field as fetched, and returns; no file is
    created and no collaborator of the registration is called.  The answer of
    that write is the error of the pass, and a refused write stores
    nothing. *)
Theorem X2_phase_announcement :
  forall (e : Env) (req : string) (w : World) (r : ClusterRegistration),
    delivers e w r ->
    deletionMarked r = false ->
    hasFinalizer r = true ->
    Phase (Status r) <> ClusterRegistrationPhaseProgressing ->
    Phase (Status r) <> ClusterRegistrationPhaseReady ->
    resolveClusterName r <> multicluster.ClusterLocalName ->
    let o := announced r in
    calls e req w = [EvGet; EvStatusUpdate o]
    /\ Phase (Status o) = ClusterRegistrationPhaseProgressing
    /\ Message (Status o) = "Registering cluster..."
    /\ Conditions (Status o) = Conditions (Status r)
    /\ ClusterInfo_ (Status o) = ClusterInfo_ (Status r)
    /\ ObservedGeneration (Status o) = ObservedGeneration (Status r)
    /\ LastReconcileTime (Status o) = LastReconcileTime (Status r)
    /\ outcome e req w = (ctrl.Result0, status_update_err e o)
    /\ object (after e req w)
       = Some (match status_update_err e o with None => o | Some _ => r end)
    /\ files (after e req w) = files w.
Proof.
  intros e req w r Hd Hdel Hfin Hp Hr Hname o.
  pose proof (@Reconcile_announce_run e req w r Hd Hdel Hfin Hp Hr Hname) as Hrun.
  unfold calls, outcome, after, evalState, execState. rewrite Hrun.
  cbn [fst snd trace object files]. rewrite skipn_length_app. fold o.
  split; [reflexivity|]. split; [reflexivity|]. split; [reflexivity|].
  split; [reflexivity|]. split; [reflexivity|]. split; [reflexivity|].
  split; [reflexivity|]. split; [reflexivity|].
  split; [destruct (status_update_err e o); reflexivity | reflexivity].
Qed.

Lemma X2_phase_announcement_witness :
  let r := samples.record "prod-west" 1 None samples.guarded
             (mkStatus ClusterRegistrationPhasePending [] None "" 0 None) in
  let w := samples.holding r in
  calls samples.writesFailEnv "prod-west" w = [EvGet; EvStatusUpdate (announced r)]
  /\ outcome samples.writesFailEnv "prod-west" w = (ctrl.Result0, Some samples.conflict)
  /\ object (after samples.writesFailEnv "prod-west" w) = Some r.
Proof.
  intros r w.
  destruct (@X2_phase_announcement samples.writesFailEnv "prod-west" w r)
    as (Hc & _ & _ & _ & _ & _ & _ & Ho & Hs & _).
  - split; reflexivity.
  - reflexivity.
  - reflexivity.
  - discriminate.
  - discriminate.
  - discriminate.
  - split; [exact Hc|]. split; [exact Ho | exact Hs].
Defined.

(** X3. A record that awaits registration (Progressing, or Ready for an
    older generation) under a name that is not reserved, when the temporary
    file, the parser, validation and the registrar all succeed: in this one
    pass, with no Progressing announcement, the document of the spec is
    written to the file, the file is loaded, the credential is validated and
    registered under the resolved name, the Ready status is written and the
    file is removed, in that order.  The pass returns the answer of the
    status write; a refused write leaves the stored record as it was. *)
Theorem X3_registration_pass :
  forall (e : Env) (req : string) (w : World) (r : ClusterRegistration)
         (name : string) (loaded : multicluster.KubeClusterConfig),
    delivers e w r ->
    deletionMarked r = false ->
    hasFinalizer r = true ->
    awaitsRegistration r ->
    resolveClusterName r <> multicluster.ClusterLocalName ->
    create_temp e = inr name ->
    write_err e (Kubeconfig (Spec r)) = None ->
    load_config e (Some (Kubeconfig (Spec r))) = inr loaded ->
    validate e (configured r loaded) = None ->
    register e (configured r loaded) = None ->
    let o := readyRecord e r loaded w in
    let c := configured r loaded in
    calls e req w
    = [EvGet; EvCreateTemp; EvWrite name (Kubeconfig (Spec r)); EvClose name;
       EvLoad name; EvValidate c; EvRegister c; EvStatusUpdate o; EvRemove name]
    /\ multicluster.ClusterName c = resolveClusterName r
    /\ multicluster.CreateNamespace c = resolveCreateNamespace r
    /\ outcome e req w = (ctrl.Result0, status_update_err e o)
    /\ object (after e req w)
       = Some (match status_update_err e o with None => o | Some _ => r end)
    /\ readFile name (files (after e req w)) = None.
Proof.
  intros e req w r name loaded Hd Hdel Hfin Haw Hname Htmp Hwr Hload Hval Hreg o c.
  pose proof (@Reconcile_register_run e req w r name loaded
                Hd Hdel Hfin Haw Hname Htmp Hwr Hload Hval Hreg) as Hrun.
  unfold calls, outcome, after, evalState, execState. rewrite Hrun.
  cbn [fst snd trace object files]. rewrite skipn_length_app. fold o. fold c.
  split; [reflexivity|]. split; [reflexivity|]. split; [reflexivity|].
  split; [reflexivity|].
  split; [destruct (status_update_err e o); reflexivity |].
  apply readFile_removeFile.
Qed.

Lemma X3_registration_pass_witness :
  let r := samples.record "" 4 None samples.guarded (samples.readyStatus 3) in
  let w := samples.holding r in
  option_map (fun s => (Phase (Status s), ObservedGeneration (Status s)))
             (object (after samples.fineEnv "prod-west" w))
  = Some (ClusterRegistrationPhaseReady, 4)
  /\ filter isStatusUpdate (calls samples.fineEnv "prod-west" w)
     = [EvStatusUpdate (readyRecord samples.fineEnv r samples.tokenConfig w)].
Proof.
  intros r w.
  destruct (@X3_registration_pass samples.fineEnv "prod-west" w r
              "/tmp/kubeconfig-1.yaml" samples.tokenConfig)
    as (Hc & _ & _ & _ & Hs & _).
  - split; reflexivity.
  - reflexivity.
  - reflexivity.
  - right. split; [reflexivity | discriminate].
  - discriminate.
  - reflexivity.
  - reflexivity.
  - reflexivity.
  - reflexivity.
  - reflexivity.
  - rewrite Hs, Hc. split; reflexivity.
Defined.

(** X4. For a record that carries the finalizer and no deletion mark, the
    pass makes no call beyond the fetch exactly when the record is Ready and
    its observed generation is the current one: in every other state the
    pass goes on to at least one more call. *)
Theorem X4_only_fixed_point :
  forall (e : Env) (req : string) (w : World) (r : ClusterRegistration),
    delivers e w r ->
    deletionMarked r = false ->
    hasFinalizer r = true ->
    (calls e req w = [EvGet]
     <-> (Phase (Status r) = ClusterRegistrationPhaseReady
          /\ ObservedGeneration (Status r) = Generation r)).
Proof.
  intros e req w r Hd Hdel Hfin. split.
  - destruct Hd as [Hget Hobj]. unfold deletionMarked, hasFinalizer in *.
    revert Hget Hobj Hdel Hfin. unfold_controller. run_all.
    all: calls_norm; intros Hget Hobj Hdel Hfin Hc; try discriminate Hc;
      try discriminate Hget; try discriminate Hobj.
    all: injection Hobj as Hobj; subst; try congruence.
    all: match goal with
         | H : _ && _ = true |- _ => apply andb_true_iff in H; destruct H as [H1 H2]
         end.
    all: split; [apply String.eqb_eq; exact H1 | apply Z.eqb_eq; exact H2].
  - intros [Hp Hg].
    pose proof (@Reconcile_fixed_point_run e req w r Hd Hdel Hfin Hp Hg) as Hrun.
    unfold calls, after, execState. rewrite Hrun. cbn [snd trace].
    apply skipn_length_app.
Qed.

Lemma X4_only_fixed_point_witness :
  let r := samples.record "prod-west" 3 None samples.guarded (samples.failedStatus 3) in
  calls samples.fineEnv "prod-west" (samples.holding r) <> [EvGet].
Proof.
  intros r Hc.
  destruct (@X4_only_fixed_point samples.fineEnv "prod-west" (samples.holding r) r)
    as [H _].
  - split; reflexivity.
  - reflexivity.
  - reflexivity.
  - destruct (H Hc) as [Hp _]. discriminate Hp.
Defined.

(* ------------------------------------------------------------------ *)
(** ** Whole lives of a record                                          *)
(* ------------------------------------------------------------------ *)

Lemma run_app (req : string) (l1 l2 : list Action) (w : World) :
  run req (l1 ++ l2) w = run req l2 (run req l1 w).
Proof.
  revert w. induction l1 as [|a l1 IH]; intros w; cbn [run app]; auto.
Qed.

Lemma resolveClusterName_ext (r r' : ClusterRegistration) :
  Spec r = Spec r' -> Name r = Name r' -> resolveClusterName r = resolveClusterName r'.
Proof.
  unfold resolveClusterName. intros Hs Hn. rewrite Hs, Hn. reflexivity.
Qed.

(** X5. A record applied under a name that is not reserved and delivered
    three times to collaborators that all succeed is Ready: the first pass
    installs the finalizer, the second announces Progressing, the third
    registers.  The registrar has been called exactly once, under the
    resolved name; the stored status carries the server of the loaded
    credential and observed generation 1; no temporary file is left; and a
    further delivery makes no call beyond the fetch. *)
Theorem X5_three_passes_to_ready :
  forall (e : Env) (req ns : string) (spec : ClusterRegistrationSpec)
         (name : string) (loaded : multicluster.KubeClusterConfig),
    cooperative e (applied req ns spec) name loaded ->
    resolveClusterName (applied req ns spec) <> multicluster.ClusterLocalName ->
    let w3 := run req [Create ns spec; Deliver e; Deliver e; Deliver e] initial in
    exists o c,
      object w3 = Some o
      /\ Phase (Status o) = ClusterRegistrationPhaseReady
      /\ ClusterInfo_ (Status o)
         = Some (mkClusterInfo (multicluster.Server (multicluster.Cluster loaded))
                               (credentialTypeOf loaded) "")
      /\ ObservedGeneration (Status o) = 1
      /\ Finalizers o = [clusterRegistrationFinalizer]
      /\ Spec o = spec
      /\ files w3 = []
      /\ filter isRegister (trace w3) = [EvRegister c]
      /\ multicluster.ClusterName c = resolveClusterName (applied req ns spec)
      /\ calls e req w3 = [EvGet].
Proof.
  intros e req ns spec name loaded Hco Hname w3.
  pose proof (@run_to_ready e req ns spec name loaded Hco Hname) as Hrun.
  cbv zeta in Hrun. subst w3. rewrite Hrun.
  eexists. eexists.
  split; [reflexivity|]. split; [reflexivity|]. split; [reflexivity|].
  split; [reflexivity|]. split; [reflexivity|]. split; [reflexivity|].
  split; [reflexivity|]. split; [reflexivity|]. split; [reflexivity|].
  destruct Hco as (Hget & _).
  unfold calls, after, execState.
  match goal with
  | |- context [runState (Reconcile e req) (mkWorld (Some ?r) ?f ?k ?tr)] =>
      rewrite (@Reconcile_fixed_point_run e req (mkWorld (Some r) f k tr) r
                 (conj Hget eq_refl));
      [| reflexivity | reflexivity | reflexivity | reflexivity]
  end.
  cbn [snd trace]. apply skipn_length_app.
Qed.

Lemma X5_three_passes_to_ready_witness :
  option_map (fun o => (Phase (Status o), Finalizers o))
    (object (run "prod-west"
                 [Create "vela-system" (mkSpec "" "" "apiVersion: v1" "" []);
                  Deliver samples.fineEnv; Deliver samples.fineEnv;
                  Deliver samples.fineEnv]
                 initial))
  = Some (ClusterRegistrationPhaseReady, [clusterRegistrationFinalizer]).
Proof.
  destruct (@X5_three_passes_to_ready samples.fineEnv "prod-west" "vela-system"
              (mkSpec "" "" "apiVersion: v1" "" []) "/tmp/kubeconfig-1.yaml"
              samples.tokenConfig)
    as (o & c & Ho & Hp & _ & _ & Hf & _).
  - unfold cooperative. repeat split.
  - discriminate.
  - rewrite Ho. cbn [option_map]. rewrite Hp, Hf. reflexivity.
Defined.

(** X6. Register and detach agree.  When the record of X5 is then marked
    for deletion and delivered, the detacher is called once, with the very
    name the registrar was given (spec.clusterName, or the record's name
    when that is empty); the record is written back without its
    finalizer, with spec, status and deletion mark as they were; no finalizer
    being left, the accepted write releases the record and nothing is stored
    any more; a further delivery finds nothing and ends at the fetch with
    success. *)
Theorem X6_register_detach_round_trip :
  forall (e : Env) (req ns : string) (spec : ClusterRegistrationSpec)
         (name : string) (loaded : multicluster.KubeClusterConfig) (t : metav1.Time),
    cooperative e (applied req ns spec) name loaded ->
    resolveClusterName (applied req ns spec) <> multicluster.ClusterLocalName ->
    t <> 0 ->
    let w4 := run req [Create ns spec; Deliver e; Deliver e; Deliver e; Delete t] initial in
    let w5 := run req [Create ns spec; Deliver e; Deliver e; Deliver e;
                       Delete t; Deliver e] initial in
    exists o c,
      option_map hasFinalizer (object w4) = Some true
      /\ object w5 = None
      /\ filter isRegister (trace w5) = [EvRegister c]
      /\ filter isDetach (trace w5) = [EvDetach (multicluster.ClusterName c)]
      /\ calls e req w4
         = [EvGet; EvDetach (multicluster.ClusterName c); EvUpdate o]
      /\ Finalizers o = []
      /\ DeletionTimestamp o = Some t
      /\ Phase (Status o) = ClusterRegistrationPhaseReady
      /\ Spec o = spec
      /\ calls e req w5 = [EvGet]
      /\ outcome e req w5 = (ctrl.Result0, None)
      /\ (ClusterName spec = "" -> multicluster.ClusterName c = req)
      /\ (ClusterName spec <> "" -> multicluster.ClusterName c = ClusterName spec).
Proof.
  intros e req ns spec name loaded t Hco Hname Ht w4 w5.
  pose proof (@run_to_ready e req ns spec name loaded Hco Hname) as Hrun.
  cbv zeta in Hrun.
  assert (Hw5 : w5 = after e req w4).
  { unfold w5, w4.
    change [Create ns spec; Deliver e; Deliver e; Deliver e; Delete t; Deliver e]
      with ([Create ns spec; Deliver e; Deliver e; Deliver e; Delete t] ++ [Deliver e])%list.
    rewrite run_app. reflexivity. }
  assert (Hw4 : w4 = act req (Delete t)
                       (run req [Create ns spec; Deliver e; Deliver e; Deliver e] initial)).
  { unfold w4.
    change [Create ns spec; Deliver e; Deliver e; Deliver e; Delete t]
      with ([Create ns spec; Deliver e; Deliver e; Deliver e] ++ [Delete t])%list.
    rewrite run_app. reflexivity. }
  rewrite Hrun in Hw4. clear Hrun.
  destruct Hco as (Hget & Hupd & _ & _ & _ & _ & _ & _ & Hdet).
  cbn [act object] in Hw4. unfold withObject in Hw4. cbn [files ticks trace] in Hw4.
  match type of Hw4 with
  | _ = mkWorld (if released ?r then None else Some _) ?f ?k ?tr =>
      set (rd := r) in Hw4
  end.
  assert (Hts : DeletionTimestamp rd = Some t) by reflexivity.
  assert (Hdel4 : deletionMarked rd = true).
  { unfold deletionMarked. rewrite Hts. cbn. destruct (t =? 0) eqn:Hz.
    - apply Z.eqb_eq in Hz. contradiction.
    - reflexivity. }
  assert (Hfin4 : hasFinalizer rd = true) by reflexivity.
  rewrite (released_guarded rd Hfin4) in Hw4.
  assert (Hd4 : delivers e w4 rd) by (rewrite Hw4; split; [exact Hget | reflexivity]).
  assert (Hblk : detachBlocks (detach e (resolveClusterName rd)) = None).
  { rewrite (@resolveClusterName_ext rd (applied req ns spec) eq_refl eq_refl).
    exact Hdet. }
  set (rd' := controllerutil.RemoveFinalizer rd clusterRegistrationFinalizer).
  assert (Hrel : released rd' = true).
  { rewrite released_marked; [reflexivity | exact Hdel4]. }
  assert (Hrun4 := @Reconcile_detach_run e req w4 rd Hd4 Hdel4 Hfin4 Hblk).
  cbv zeta in Hrun4. fold rd' in Hrun4. rewrite Hupd, Hrel in Hrun4.
  assert (Hafter : after e req w4
                   = mkWorld None (files w4) (ticks w4)
                       (trace w4 ++ [EvGet; EvDetach (resolveClusterName rd);
                                     EvUpdate rd'])%list).
  { unfold after, execState. rewrite Hrun4. reflexivity. }
  assert (Hname4 : resolveClusterName rd
                   = multicluster.ClusterName
                       (configured (controllerutil.AddFinalizer (applied req ns spec)
                                      clusterRegistrationFinalizer) loaded)).
  { rewrite (@resolveClusterName_ext rd (applied req ns spec) eq_refl eq_refl).
    unfold configured, multicluster.SetCreateNamespace, multicluster.SetClusterName.
    cbn [multicluster.ClusterName].
    rewrite (@resolveClusterName_ext
               (controllerutil.AddFinalizer (applied req ns spec)
                  clusterRegistrationFinalizer)
               (applied req ns spec) eq_refl eq_refl).
    reflexivity. }
  exists rd'. eexists.
  split; [rewrite Hw4; cbn [object option_map]; rewrite Hfin4; reflexivity|].
  rewrite Hw5, Hafter.
  split; [reflexivity|].
  split; [rewrite Hw4; cbn [trace app]; cbn [filter isRegister]; reflexivity|].
  split; [rewrite Hw4; cbn [trace app]; cbn [filter isDetach]; rewrite Hname4;
          reflexivity|].
  split; [unfold calls; rewrite Hafter; cbn [trace]; rewrite skipn_length_app, Hname4;
          reflexivity|].
  split; [reflexivity|].
  split; [exact Hts|].
  split; [reflexivity|]. split; [reflexivity|].
  match goal with
  | |- calls _ _ ?w = _ /\ _ =>
      assert (Hlast := @Reconcile_absent_run e req w Hget eq_refl);
      unfold calls, outcome, after, evalState, execState; rewrite Hlast
  end.
  cbn [fst snd trace]. rewrite skipn_length_app.
  split; [reflexivity|]. split; [reflexivity|].
  rewrite <- Hname4,
    (@resolveClusterName_ext rd (applied req ns spec) eq_refl eq_refl).
  unfold resolveClusterName, applied, Name.
  cbn [Spec ObjectMeta metav1.Name].
  split; intros Hn.
  - rewrite Hn. reflexivity.
  - apply String.eqb_neq in Hn. rewrite Hn. reflexivity.
Qed.

Lemma X6_register_detach_round_trip_witness :
  let spec := mkSpec "edge-7" "" "apiVersion: v1" "" [] in
  let w4 := run "prod-west"
                [Create "vela-system" spec; Deliver samples.fineEnv;
                 Deliver samples.fineEnv; Deliver samples.fineEnv; Delete 900] initial in
  let w5 := run "prod-west"
                [Create "vela-system" spec; Deliver samples.fineEnv;
                 Deliver samples.fineEnv; Deliver samples.fineEnv;
                 Delete 900; Deliver samples.fineEnv] initial in
  exists o c,
    option_map hasFinalizer (object w4) = Some true
    /\ object w5 = None
    /\ filter isRegister (trace w5) = [EvRegister c]
    /\ filter isDetach (trace w5) = [EvDetach (multicluster.ClusterName c)]
    /\ calls samples.fineEnv "prod-west" w4
       = [EvGet; EvDetach (multicluster.ClusterName c); EvUpdate o]
    /\ Finalizers o = []
    /\ DeletionTimestamp o = Some 900
    /\ Phase (Status o) = ClusterRegistrationPhaseReady
    /\ Spec o = spec
    /\ calls samples.fineEnv "prod-west" w5 = [EvGet]
    /\ outcome samples.fineEnv "prod-west" w5 = (ctrl.Result0, None)
    /\ (ClusterName spec = "" -> multicluster.ClusterName c = "prod-west")
    /\ (ClusterName spec <> "" -> multicluster.ClusterName c = ClusterName spec).
Proof.
  intros spec.
  apply (@X6_register_detach_round_trip samples.fineEnv "prod-west" "vela-system"
           spec "/tmp/kubeconfig-1.yaml" samples.tokenConfig 900).
  - unfold cooperative. repeat split.
  - discriminate.
  - discriminate.
Defined.

(* ------------------------------------------------------------------ *)
(** ** What any pass does, whatever it is handed                        *)
(* ------------------------------------------------------------------ *)


Ltac fold_removeFile :=
  rewrite ?String.eqb_refl; cbn [negb];
  repeat match goal with
         | |- context [filter (fun f : string * string => negb (String.eqb (fst f) ?n)) ?l] =>
             change (filter (fun f : string * string => negb (String.eqb (fst f) n)) l)
               with (removeFile n l)
         end;
  rewrite ?removeFile_cons_same, ?removeFile_idem.

(** X8. The temporary file never outlives the pass.  When the pass creates
    the file, then on every way out (write refused, document rejected,
    validation or registration failed, status written or not) the file is
    gone afterwards and every other file is as before; when no file is
    created, the files are untouched. *)
Theorem X8_temporary_file_removed :
  forall (e : Env) (req : string) (w : World),
    (forall name, create_temp e = inr name -> In EvCreateTemp (calls e req w) ->
       readFile name (files (after e req w)) = None
       /\ (forall n, n <> name ->
             readFile n (files (after e req w)) = readFile n (files w))
       /\ In (EvRemove name) (calls e req w))
    /\ ((~ In EvCreateTemp (calls e req w) \/ exists err, create_temp e = inl err) ->
          files (after e req w) = files w).
Proof.
  intros e req w. split.
  - intros name. unfold_controller. run_all.
    all: calls_norm; intros Htmp Hin; try discriminate Htmp;
      try (exfalso; simpl in Hin; intuition discriminate).
    all: injection Htmp as Htmp; subst; fold_removeFile.
    all: split; [apply readFile_removeFile|];
      split; [intros n Hn; apply readFile_removeFile_other; exact Hn | pick_call].
  - unfold_controller. run_all.
    all: calls_norm; intros Hno; try reflexivity.
    all: destruct Hno as [Hno | [err Herr]];
      [exfalso; apply Hno; simpl; tauto | discriminate Herr].
Qed.

Lemma X8_temporary_file_removed_witness :
  let r := samples.record "prod-west" 1 None samples.guarded samples.progressingStatus in
  let w := mkWorld (Some r) [("/tmp/kubeconfig-1.yaml", "stale"); ("/tmp/other", "kept")]
                   O [] in
  readFile "/tmp/kubeconfig-1.yaml" (files (after samples.registerFailsEnv "prod-west" w))
  = None
  /\ readFile "/tmp/other" (files (after samples.registerFailsEnv "prod-west" w))
     = Some "kept".
Proof.
  intros r w.
  destruct (X8_temporary_file_removed samples.registerFailsEnv "prod-west" w) as [H _].
  destruct (H "/tmp/kubeconfig-1.yaml" eq_refl) as (Hgone & Hkept & _).
  - vm_compute. tauto.
  - split; [exact Hgone |]. rewrite Hkept; [reflexivity | discriminate].
Defined.

(** X11. An error returned by a pass is always the answer of one of four
    calls it made: the fetch (unless not-found), the detacher (unless
    not-found), Update, or a status write of a phase other than Failed.
    Errors of the temporary file, the parser, validation and the registrar
    are never returned. *)
Theorem X11_returned_errors :
  forall (e : Env) (req : string) (w : World) (err : error),
    snd (outcome e req w) = Some err ->
    (get_err e = Some err /\ IsNotFound err = false)
    \/ (exists n, In (EvDetach n) (calls e req w)
                  /\ detach e n = Some err /\ IsNotFound err = false)
    \/ (exists o, In (EvUpdate o) (calls e req w) /\ update_err e o = Some err)
    \/ (exists o, In (EvStatusUpdate o) (calls e req w)
                  /\ status_update_err e o = Some err
                  /\ Phase (Status o) <> ClusterRegistrationPhaseFailed).
Proof.
  intros e req w err. unfold_controller. run_all.
  all: calls_norm; intros Herr; cbn in Herr; try discriminate Herr.
  all: injection Herr as Herr; subst.
  all: first
         [ left; split; [first [assumption | reflexivity] | assumption]
         | right; left; eexists; split; [pick_call | split; [eassumption |]];
           apply negb_true_iff; assumption
         | right; right; left; eexists; split; [pick_call | eassumption]
         | right; right; right; eexists; split; [pick_call |];
           split; [eassumption | discriminate] ].
Qed.

Lemma X11_returned_errors_witness :
  let r := samples.record "prod-west" 1 None samples.guarded samples.progressingStatus in
  In (EvRegister
        (configured r samples.tokenConfig))
     (calls samples.registerFailsEnv "prod-west" (samples.holding r))
  /\ snd (outcome samples.registerFailsEnv "prod-west" (samples.holding r)) = None
  /\ snd (outcome samples.writesFailEnv "prod-west" (samples.holding r))
     = Some samples.conflict.
Proof.
  intros r. split; [vm_compute; tauto|]. split; [reflexivity|].
  destruct (@X11_returned_errors samples.writesFailEnv "prod-west" (samples.holding r)
              samples.conflict eq_refl)
    as [[H _] | [(n & _ & H & _) | [(o & _ & H) | (o & _ & H & _)]]];
    try discriminate H; reflexivity.
Defined.

(** X12. The two requeue directives.  Requeue is returned only by the pass
    that installed the finalizer, after its Update was accepted.
    RequeueAfter is returned only when the registrar was called and failed,
    and is then 30 seconds.  Neither comes with an error, and they never
    come together. *)
Theorem X12_requeue_directives :
  forall (e : Env) (req : string) (w : World),
    let res := fst (outcome e req w) in
    (ctrl.Requeue res = true ->
       ctrl.RequeueAfter res = 0
       /\ snd (outcome e req w) = None
       /\ exists r, object w = Some r
                    /\ hasFinalizer r = false
                    /\ deletionMarked r = false
                    /\ calls e req w
                       = [EvGet; EvUpdate (controllerutil.AddFinalizer r
                                             clusterRegistrationFinalizer)]
                    /\ update_err e (controllerutil.AddFinalizer r
                                       clusterRegistrationFinalizer) = None)
    /\ (ctrl.RequeueAfter res <> 0 ->
          ctrl.RequeueAfter res = 30 * ctrl.Second
          /\ ctrl.Requeue res = false
          /\ snd (outcome e req w) = None
          /\ exists c err, In (EvRegister c) (calls e req w)
                           /\ register e c = Some err).
Proof.
  intros e req w res. subst res. unfold hasFinalizer, deletionMarked.
  unfold_controller. run_all.
  all: calls_norm; split; intros Hq; cbn in Hq; try discriminate Hq;
    try (exfalso; apply Hq; reflexivity).
  all: try (split; [reflexivity|]; split; [reflexivity|]; eexists;
            split; [reflexivity|]; split; [apply negb_true_iff; assumption|];
            split; [assumption|]; split; [reflexivity | assumption]).
  all: split; [reflexivity|]; split; [reflexivity|]; split; [reflexivity|];
    eexists; eexists; split; [pick_call | eassumption].
Qed.

Lemma X12_requeue_directives_witness :
  let r := samples.record "prod-west" 1 None samples.guarded samples.progressingStatus in
  let w := samples.holding r in
  ctrl.RequeueAfter (fst (outcome samples.registerFailsEnv "prod-west" w))
  = 30 * ctrl.Second
  /\ ctrl.Requeue (fst (outcome samples.registerFailsEnv "prod-west" w)) = false
  /\ snd (outcome samples.registerFailsEnv "prod-west" w) = None.
Proof.
  intros r w.
  destruct (X12_requeue_directives samples.registerFailsEnv "prod-west" w) as [_ H].
  destruct H as (Ha & Hb & Hc & _).
  - vm_compute. discriminate.
  - split; [exact Ha | split; [exact Hb | exact Hc]].
Defined.

(** X13. A refused status write that is not a Failed projection (the
    Progressing announcement, the Ready write) is returned as the error of
    the pass, with the zero result, and the stored record stays as it
    was. *)
Theorem X13_refused_status_write :
  forall (e : Env) (req : string) (w : World) (o : ClusterRegistration) (err : error),
    In (EvStatusUpdate o) (calls e req w) ->
    Phase (Status o) <> ClusterRegistrationPhaseFailed ->
    status_update_err e o = Some err ->
    outcome e req w = (ctrl.Result0, Some err)
    /\ object (after e req w) = object w.
Proof.
  intros e req w o err. unfold_controller. run_all.
  all: calls_norm; intros Hin Hph Herr; find_call Hin.
  all: injection Hin as Hin; subst o; try (exfalso; apply Hph; reflexivity).
  all: try (match goal with
            | H : status_update_err _ _ = None |- _ =>
                exfalso; generalize (eq_trans (eq_sym H) Herr); discriminate
            end).
  all: match goal with
       | H : status_update_err _ _ = Some ?x |- _ =>
           tryif constr_eq x err then fail
           else (generalize (eq_trans (eq_sym H) Herr); intros Heq;
                 injection Heq as Heq; subst x)
       end.
  all: split; [reflexivity | first [reflexivity | assumption | symmetry; assumption]].
Qed.

Lemma X13_refused_status_write_witness :
  let r := samples.record "prod-west" 1 None samples.guarded samples.progressingStatus in
  let w := samples.holding r in
  outcome samples.writesFailEnv "prod-west" w = (ctrl.Result0, Some samples.conflict)
  /\ object (after samples.writesFailEnv "prod-west" w) = Some r.
Proof.
  intros r w.
  apply (@X13_refused_status_write samples.writesFailEnv "prod-west" w
           (readyRecord samples.writesFailEnv r samples.tokenConfig w) samples.conflict).
  - vm_compute. tauto.
  - discriminate.
  - reflexivity.
Defined.

(* ------------------------------------------------------------------ *)
(** ** Failures before registration                                     *)
(* ------------------------------------------------------------------ *)

(** Identifies the answer assumed in [Hc] with the one the case analysis
    recorded for the same call. *)
Ltac same_answer Hc :=
  match type of Hc with
  | _ = ?v =>
      match goal with
      | H : _ = ?v' |- _ =>
          tryif constr_eq H Hc then fail
          else (let Heq := fresh "Heq" in
                assert (Heq : v' = v) by exact (eq_trans (eq_sym H) Hc);
                try discriminate Heq; try (injection Heq as Heq); subst)
      end
  end.

(** Closes a failure exit: the calls are as listed, with the Failed record
    of [updateFailedStatus], and the pass returns the zero result. *)
Ltac failed_exit :=
  split; [rewrite failedRecord_eq; reflexivity | reflexivity].

(** X9. When the temporary file cannot be created, or the document cannot
    be written to it, the pass projects Failed with the message
    "Failed to create temporary file: " or "Failed to write kubeconfig: "
    followed by the text of the error, calls neither the parser nor the
    registrar, and returns the zero result with no error; a file that was
    created is removed. *)
Theorem X9_temporary_file_failures :
  forall (e : Env) (req : string) (w : World) (r : ClusterRegistration),
    object w = Some r ->
    (forall err, In EvCreateTemp (calls e req w) -> create_temp e = inl err ->
       calls e req w
       = [EvGet; EvCreateTemp;
          EvStatusUpdate (failedRecord e r ("Failed to create temporary file: " ++ Error err) w)]
       /\ outcome e req w = (ctrl.Result0, None))
    /\ (forall name doc err,
          In (EvWrite name doc) (calls e req w) -> write_err e doc = Some err ->
          doc = Kubeconfig (Spec r)
          /\ calls e req w
             = [EvGet; EvCreateTemp; EvWrite name doc;
                EvStatusUpdate (failedRecord e r ("Failed to write kubeconfig: " ++ Error err) w);
                EvRemove name]
          /\ outcome e req w = (ctrl.Result0, None)).
Proof.
  intros e req w r Hobj. split.
  - intros err. revert Hobj.
    unfold calls, outcome, after, evalState, execState, Reconcile, handleDeletion,
      removeFinalizerAndUpdate, registerWithFile, updateFailedStatus.
    run_all.
    all: calls_norm; intros Hobj Hin Hc; find_call Hin; try discriminate Hc.
    all: injection Hc as Hc; injection Hobj as Hobj; subst.
    all: failed_exit.
  - intros name doc err. revert Hobj.
    unfold calls, outcome, after, evalState, execState, Reconcile, handleDeletion,
      removeFinalizerAndUpdate, registerWithFile, updateFailedStatus.
    run_all.
    all: calls_norm; intros Hobj Hin Hc; find_call Hin.
    all: injection Hin as Hn Hd; injection Hobj as Hobj; subst.
    all: same_answer Hc.
    all: split; [reflexivity | failed_exit].
Qed.

Lemma X9_temporary_file_failures_witness :
  let r := samples.record "prod-west" 1 None samples.guarded samples.progressingStatus in
  let w := samples.holding r in
  let e := mkEnv None (fun _ => None) (fun _ => None) (inl samples.storeDown)
                 (fun _ => None) (samples.parse samples.tokenConfig) samples.validateNames
                 (fun _ => None) (fun _ => None) (fun n => 1000 + Z.of_nat n) in
  calls e "prod-west" w
  = [EvGet; EvCreateTemp;
     EvStatusUpdate
       (failedRecord e r "Failed to create temporary file: etcdserver: request timed out" w)]
  /\ outcome e "prod-west" w = (ctrl.Result0, None).
Proof.
  intros r w e.
  destruct (@X9_temporary_file_failures e "prod-west" w r eq_refl) as [H _].
  apply (H samples.storeDown).
  - vm_compute. tauto.
  - reflexivity.
Defined.

(** X10. When the parser rejects the document, or validation rejects the
    credential, the pass projects Failed with the message
    "Failed to load kubeconfig: " or "Validation failed: " followed by the
    text of the error, does not call the registrar, removes the file, and
    returns the zero result with no error.  The parser is asked about the
    document of the spec, and the credential validated is the loaded one
    under the resolved name and namespace. *)
Theorem X10_load_and_validation_failures :
  forall (e : Env) (req : string) (w : World) (r : ClusterRegistration),
    object w = Some r ->
    (forall name err,
       In (EvLoad name) (calls e req w) ->
       load_config e (Some (Kubeconfig (Spec r))) = inl err ->
       calls e req w
       = [EvGet; EvCreateTemp; EvWrite name (Kubeconfig (Spec r)); EvClose name;
          EvLoad name;
          EvStatusUpdate (failedRecord e r ("Failed to load kubeconfig: " ++ Error err) w);
          EvRemove name]
       /\ outcome e req w = (ctrl.Result0, None))
    /\ (forall c err,
          In (EvValidate c) (calls e req w) -> validate e c = Some err ->
          exists name loaded,
            load_config e (Some (Kubeconfig (Spec r))) = inr loaded
            /\ c = configured r loaded
            /\ calls e req w
               = [EvGet; EvCreateTemp; EvWrite name (Kubeconfig (Spec r)); EvClose name;
                  EvLoad name; EvValidate c;
                  EvStatusUpdate (failedRecord e r ("Validation failed: " ++ Error err) w);
                  EvRemove name]
            /\ outcome e req w = (ctrl.Result0, None)).
Proof.
  intros e req w r Hobj. split.
  - intros name err. revert Hobj.
    unfold calls, outcome, after, evalState, execState, Reconcile, handleDeletion,
      removeFinalizerAndUpdate, registerWithFile, updateFailedStatus.
    run_all.
    all: calls_norm; intros Hobj Hin Hc; find_call Hin.
    all: injection Hin as Hn; injection Hobj as Hobj; subst.
    all: match goal with
         | H : load_config _ _ = _ |- _ => rewrite String.eqb_refl in H; simpl in H
         end.
    all: same_answer Hc.
    all: failed_exit.
  - intros c err. revert Hobj.
    unfold calls, outcome, after, evalState, execState, Reconcile, handleDeletion,
      removeFinalizerAndUpdate, registerWithFile, updateFailedStatus.
    run_all.
    all: calls_norm; intros Hobj Hin Hc; find_call Hin.
    all: injection Hin as Hn; injection Hobj as Hobj; subst.
    all: same_answer Hc.
    all: match goal with
         | H : load_config _ _ = inr ?k |- _ =>
             rewrite String.eqb_refl in H; simpl in H;
             eexists; exists k; split; [exact H |]
         end.
    all: split; [reflexivity | failed_exit].
Qed.

Lemma X10_load_and_validation_failures_witness :
  let r := mkClusterRegistration
             (metav1.mkObjectMeta "prod-west" "vela-system" 1 None samples.guarded)
             (mkSpec "" "" "not a valid document" "" [])
             samples.progressingStatus in
  let w := samples.holding r in
  filter isStatusUpdate (calls samples.fineEnv "prod-west" w)
  = [EvStatusUpdate
       (failedRecord samples.fineEnv r
          "Failed to load kubeconfig: couldn't get version/kind; json parse error" w)]
  /\ outcome samples.fineEnv "prod-west" w = (ctrl.Result0, None).
Proof.
  intros r w.
  destruct (@X10_load_and_validation_failures samples.fineEnv "prod-west" w r eq_refl)
    as [H _].
  destruct (H "/tmp/kubeconfig-1.yaml"
              (New "couldn't get version/kind; json parse error")) as [Hc Ho].
  - vm_compute. tauto.
  - reflexivity.
  - rewrite Hc. split; [reflexivity | exact Ho].
Defined.

(* ------------------------------------------------------------------ *)
(** ** Invariants of the stored record                                  *)
(* ------------------------------------------------------------------ *)

Lemma run_preserves (P : World -> Prop) (req : string) :
  (forall a w, P w -> P (act req a w)) ->
  forall acts w, P w -> P (run req acts w).
Proof.
  intros Hact acts. induction acts as [|a acts IH]; intros w Hw; cbn [run].
  - exact Hw.
  - apply IH, Hact, Hw.
Qed.

Lemma user_action_keeps_status (req : string) (a : Action) (w : World)
      (P : ClusterRegistrationStatus -> Prop) :
  (forall e, a <> Deliver e) ->
  P emptyStatus ->
  storedSatisfies (fun o => P (Status o)) w ->
  storedSatisfies (fun o => P (Status o)) (act req a w).
Proof.
  intros Hne Hempty. unfold storedSatisfies.
  destruct a as [e | ns spec | spec | t]; cbn [act].
  - now elim (Hne e).
  - destruct (object w) eqn:Ho; cbn; rewrite ?Ho; auto.
  - destruct (object w) eqn:Ho; cbn; rewrite ?Ho; auto.
  - destruct (object w) eqn:Ho; cbn; rewrite ?Ho; auto.
    split_released; cbn; auto.
Qed.

Lemma after_phaseAssigned (e : Env) (req : string) (w : World) :
  storedSatisfies phaseAssigned w -> storedSatisfies phaseAssigned (after e req w).
Proof.
  unfold storedSatisfies, phaseAssigned. unfold_controller. run_all.
  all: split_released.
  all: intros Hp; cbn in *; auto.
Qed.

(** X14. The stored phase is always the empty phase of a record not yet
    written, Progressing, Ready or Failed: the controller never stores
    Pending or any other value, in any execution from an empty store. *)
Theorem X14_phases_stored :
  forall (req : string) (acts : list Action),
    storedSatisfies phaseAssigned (run req acts initial)
    /\ storedSatisfies
         (fun o => Phase (Status o) <> ClusterRegistrationPhasePending)
         (run req acts initial).
Proof.
  intros req acts.
  assert (H : storedSatisfies phaseAssigned (run req acts initial)).
  { apply run_preserves; [| exact I].
    intros a w Hw. destruct a as [e | ns spec | spec | t].
    - apply after_phaseAssigned. exact Hw.
    - apply (@user_action_keeps_status req (Create ns spec) w
               (fun s => Phase s = "" \/ Phase s = ClusterRegistrationPhaseProgressing
                         \/ Phase s = ClusterRegistrationPhaseReady
                         \/ Phase s = ClusterRegistrationPhaseFailed));
        [discriminate | left; reflexivity | exact Hw].
    - apply (@user_action_keeps_status req (Edit spec) w
               (fun s => Phase s = "" \/ Phase s = ClusterRegistrationPhaseProgressing
                         \/ Phase s = ClusterRegistrationPhaseReady
                         \/ Phase s = ClusterRegistrationPhaseFailed));
        [discriminate | left; reflexivity | exact Hw].
    - apply (@user_action_keeps_status req (Delete t) w
               (fun s => Phase s = "" \/ Phase s = ClusterRegistrationPhaseProgressing
                         \/ Phase s = ClusterRegistrationPhaseReady
                         \/ Phase s = ClusterRegistrationPhaseFailed));
        [discriminate | left; reflexivity | exact Hw]. }
  split; [exact H|].
  unfold storedSatisfies in *. destruct (object (run req acts initial)); [| exact I].
  destruct H as [H | [H | [H | H]]]; rewrite H; discriminate.
Qed.

Lemma after_readyHasInfo (e : Env) (req : string) (w : World) :
  storedSatisfies readyHasInfo w -> storedSatisfies readyHasInfo (after e req w).
Proof.
  unfold storedSatisfies, readyHasInfo. unfold_controller. run_all.
  all: split_released.
  all: intros Hp; cbn in *; auto; intros Hr; try discriminate Hr; discriminate.
Qed.

(** X15. In any execution from an empty store, a stored record whose phase
    is Ready carries a clusterInfo: the Ready write sets both, and no other
    write of the controller clears clusterInfo. *)
Theorem X15_ready_has_clusterInfo :
  forall (req : string) (acts : list Action),
    storedSatisfies readyHasInfo (run req acts initial).
Proof.
  intros req acts. apply run_preserves; [| exact I].
  intros a w Hw. destruct a as [e | ns spec | spec | t].
  - apply after_readyHasInfo. exact Hw.
  - apply (@user_action_keeps_status req (Create ns spec) w
             (fun s => Phase s = ClusterRegistrationPhaseReady -> ClusterInfo_ s <> None));
      [discriminate | discriminate | exact Hw].
  - apply (@user_action_keeps_status req (Edit spec) w
             (fun s => Phase s = ClusterRegistrationPhaseReady -> ClusterInfo_ s <> None));
      [discriminate | discriminate | exact Hw].
  - apply (@user_action_keeps_status req (Delete t) w
             (fun s => Phase s = ClusterRegistrationPhaseReady -> ClusterInfo_ s <> None));
      [discriminate | discriminate | exact Hw].
Qed.

Lemma after_observedBounded (e : Env) (req : string) (w : World) :
  storedSatisfies observedBounded w -> storedSatisfies observedBounded (after e req w).
Proof.
  unfold storedSatisfies, observedBounded, Generation. unfold_controller. run_all.
  all: split_released.
  all: intros Hp; unfold Generation, controllerutil.AddFinalizer in *;
    repeat match goal with
           | H : negb _ = true |- _ => apply negb_true_iff in H; rewrite ?H in *
           end;
    cbn in *; auto; lia.
Qed.

(** X16. In any execution from an empty store the stored observed
    generation never exceeds the generation: the Ready and Failed writes set
    it to the generation fetched, the Progressing announcement keeps it, and
    a spec change only raises the generation. *)
Theorem X16_observed_generation_bounded :
  forall (req : string) (acts : list Action),
    storedSatisfies observedBounded (run req acts initial).
Proof.
  intros req acts. apply run_preserves; [| exact I].
  intros a w Hw. destruct a as [e | ns spec | spec | t]; cbn [act].
  - apply after_observedBounded. exact Hw.
  - unfold storedSatisfies, observedBounded, Generation in *.
    destruct (object w) eqn:Ho; cbn; rewrite ?Ho; auto; lia.
  - unfold storedSatisfies, observedBounded, Generation in *.
    destruct (object w) eqn:Ho; cbn -[Z.add] in *; rewrite ?Ho; auto; lia.
  - unfold storedSatisfies, observedBounded, Generation in *.
    destruct (object w) eqn:Ho; cbn in *; rewrite ?Ho; auto.
    split_released; cbn; auto.
Qed.

Lemma otherFinalizers_AddFinalizer (r : ClusterRegistration) :
  otherFinalizers (controllerutil.AddFinalizer r clusterRegistrationFinalizer)
  = otherFinalizers r.
Proof.
  unfold otherFinalizers, controllerutil.AddFinalizer.
  destruct (controllerutil.ContainsFinalizer r clusterRegistrationFinalizer); auto.
  unfold Finalizers. cbn [ObjectMeta setObjectMeta metav1.setFinalizers metav1.Finalizers].
  rewrite filter_app. cbn [filter]. rewrite String.eqb_refl. cbn [negb].
  apply app_nil_r.
Qed.

Lemma otherFinalizers_RemoveFinalizer (r : ClusterRegistration) :
  otherFinalizers (controllerutil.RemoveFinalizer r clusterRegistrationFinalizer)
  = otherFinalizers r.
Proof.
  unfold otherFinalizers, controllerutil.RemoveFinalizer, Finalizers.
  cbn [ObjectMeta setObjectMeta metav1.setFinalizers metav1.Finalizers].
  induction (metav1.Finalizers (ObjectMeta r)) as [|f l IH]; cbn [filter]; auto.
  destruct (negb (String.eqb f clusterRegistrationFinalizer)) eqn:Hf; cbn [filter];
    rewrite ?Hf, IH; reflexivity.
Qed.

Lemma sameIdentity_AddFinalizer (r : ClusterRegistration) (s : ClusterRegistrationStatus) :
  sameIdentity r (setStatus (controllerutil.AddFinalizer r clusterRegistrationFinalizer) s).
Proof.
  unfold sameIdentity.
  split; [| split; [| split; [| split; [| split]]]];
    try (unfold controllerutil.AddFinalizer;
         destruct (controllerutil.ContainsFinalizer r clusterRegistrationFinalizer);
         reflexivity).
  exact (otherFinalizers_AddFinalizer r).
Qed.

Lemma sameIdentity_RemoveFinalizer (r : ClusterRegistration) (s : ClusterRegistrationStatus) :
  sameIdentity r (setStatus (controllerutil.RemoveFinalizer r clusterRegistrationFinalizer) s).
Proof.
  unfold sameIdentity.
  split; [| split; [| split; [| split; [| split]]]]; try reflexivity.
  exact (otherFinalizers_RemoveFinalizer r).
Qed.

Lemma sameIdentity_refl (r : ClusterRegistration) : sameIdentity r r.
Proof.
  unfold sameIdentity. repeat (split; [reflexivity|]). reflexivity.
Qed.

Lemma sameIdentity_setStatus (r : ClusterRegistration) (s : ClusterRegistrationStatus) :
  sameIdentity r (setStatus r s).
Proof.
  unfold sameIdentity. repeat (split; [reflexivity|]). reflexivity.
Qed.

Lemma released_RemoveFinalizer (r : ClusterRegistration) (s : ClusterRegistrationStatus) :
  released (setStatus (controllerutil.RemoveFinalizer r clusterRegistrationFinalizer) s)
  = negb (metav1.IsZero (DeletionTimestamp r))
    && match otherFinalizers r with [] => true | _ :: _ => false end.
Proof. reflexivity. Qed.

(** X17. A pass never creates a record, and of a record it leaves stored
    it changes nothing but the status and its own finalizer: spec, name,
    namespace, generation, deletion mark and the finalizers of other
    controllers (in order) are as before, and the status is changed only on
    a record without deletion mark.  A pass makes a stored record disappear
    in one case only: the record is marked for deletion, carries the
    controller's finalizer and no other, and the pass detached the cluster,
    wrote the record back without the finalizer and returned success. *)
Theorem X17_pass_frame :
  forall (e : Env) (req : string) (w : World),
    match object w, object (after e req w) with
    | None, None => True
    | None, Some _ => False
    | Some r, Some r' =>
        sameIdentity r r'
        /\ (deletionMarked r = true -> Status r' = Status r)
    | Some r, None =>
        deletionMarked r = true
        /\ hasFinalizer r = true
        /\ otherFinalizers r = []
        /\ calls e req w
           = [EvGet; EvDetach (resolveClusterName r);
              EvUpdate (controllerutil.RemoveFinalizer r clusterRegistrationFinalizer)]
        /\ outcome e req w = (ctrl.Result0, None)
    end.
Proof.
  intros e req w. unfold deletionMarked.
  unfold_controller. run_all.
  all: repeat match goal with
              | |- context [match object ?x with _ => _ end] => destruct (object x) eqn:?
              end; try exact I.
  all: split_released.
  all: try (split; [| intros Hd; try reflexivity; congruence]; first [ apply sameIdentity_AddFinalizer | apply sameIdentity_RemoveFinalizer | apply sameIdentity_setStatus | apply sameIdentity_refl ]).
  all: match goal with
       | H : released (setStatus (controllerutil.RemoveFinalizer ?c _) _) = true |- _ =>
           rewrite released_RemoveFinalizer in H; apply andb_true_iff in H;
           destruct H as [_ H]; unfold hasFinalizer;
           destruct (otherFinalizers c); [| discriminate H];
           split; [reflexivity|]; split; [assumption|]; split; [reflexivity|];
           calls_norm; split; reflexivity
       | H : released (setStatus (controllerutil.AddFinalizer ?c ?f) ?s) = true |- _ =>
           change (released (controllerutil.AddFinalizer c f) = true) in H;
           rewrite released_unmarked in H; [discriminate H|];
           rewrite deletionMarked_AddFinalizer; unfold deletionMarked; assumption
       end.
Qed.


Lemma X14_phases_stored_witness :
  let acts := [Create "vela-system" (mkSpec "" "" "apiVersion: v1" "" []);
               Deliver samples.fineEnv; Deliver samples.registerFailsEnv;
               Deliver samples.registerFailsEnv] in
  storedSatisfies phaseAssigned (run "prod-west" acts initial)
  /\ storedSatisfies (fun o => Phase (Status o) <> ClusterRegistrationPhasePending)
       (run "prod-west" acts initial).
Proof.
  intros acts. apply (X14_phases_stored "prod-west" acts).
Defined.

Lemma X17_pass_frame_witness :
  let r := samples.record "" 2 (Some 700) ("other/finalizer" :: samples.guarded)
             (samples.readyStatus 2) in
  let r1 := samples.record "" 2 (Some 700) samples.guarded (samples.readyStatus 2) in
  option_map (fun o => (Finalizers o, Status o, Spec o))
             (object (after samples.fineEnv "prod-west" (samples.holding r)))
  = Some (["other/finalizer"], Status r, Spec r)
  /\ object (after samples.fineEnv "prod-west" (samples.holding r1)) = None
  /\ calls samples.fineEnv "prod-west" (samples.holding r1)
     = [EvGet; EvDetach "prod-west";
        EvUpdate (controllerutil.RemoveFinalizer r1 clusterRegistrationFinalizer)].
Proof.
  intros r r1. split.
  - pose proof (X17_pass_frame samples.fineEnv "prod-west" (samples.holding r)) as H.
    cbn [object samples.holding] in H.
    destruct (object (after samples.fineEnv "prod-west" (samples.holding r)))
      as [r'|] eqn:Ho.
    + destruct H as [(Hs & _) Hst].
      cbn [option_map]. rewrite (Hst eq_refl), Hs.
      injection Ho as Ho. rewrite <- Ho. reflexivity.
    + vm_compute in Ho. discriminate Ho.
  - pose proof (X17_pass_frame samples.fineEnv "prod-west" (samples.holding r1)) as H.
    cbn [object samples.holding] in H.
    destruct (object (after samples.fineEnv "prod-west" (samples.holding r1)))
      as [r'|] eqn:Ho.
    + vm_compute in Ho. discriminate Ho.
    + destruct H as (_ & _ & _ & Hc & _). split; [reflexivity | exact Hc].
Defined.

(* ------------------------------------------------------------------ *)
(** ** What is handed to the registrar                                  *)
(* ------------------------------------------------------------------ *)

Lemma awaitsRegistration_of_tests (r : ClusterRegistration) :
  String.eqb (Phase (Status r)) ClusterRegistrationPhaseReady
  && (ObservedGeneration (Status r) =? Generation r) = false ->
  negb (String.eqb (Phase (Status r)) ClusterRegistrationPhaseProgressing)
  && negb (String.eqb (Phase (Status r)) ClusterRegistrationPhaseReady) = false ->
  awaitsRegistration r.
Proof.
  unfold awaitsRegistration. intros Hfix Hann.
  destruct (String.eqb (Phase (Status r)) ClusterRegistrationPhaseProgressing) eqn:Hp.
  - left. apply String.eqb_eq. exact Hp.
  - destruct (String.eqb (Phase (Status r)) ClusterRegistrationPhaseReady) eqn:Hr;
      [| discriminate Hann].
    right. split; [apply String.eqb_eq; exact Hr |].
    cbn in Hfix. apply Z.eqb_neq. exact Hfix.
Qed.

Lemma resolveCreateNamespace_nonempty (r : ClusterRegistration) :
  resolveCreateNamespace r <> "".
Proof.
  unfold resolveCreateNamespace. cbv zeta.
  destruct (String.eqb (CreateNamespace (Spec r)) "") eqn:Hn.
  - discriminate.
  - apply String.eqb_neq. exact Hn.
Qed.

(** X18. Whenever the registrar is called, the stored record awaits
    registration (its phase is Progressing, or Ready for an older
    generation: never empty, Pending or Failed), and the credential handed
    over has passed validation, names the cluster by the resolved name, which
    is not the reserved one, and names the namespace of the spec, or
    "vela-system" when the spec gives none, so never the empty namespace. *)
Theorem X18_registrar_input :
  forall (e : Env) (req : string) (w : World) (c : multicluster.KubeClusterConfig),
    In (EvRegister c) (calls e req w) ->
    exists r,
      object w = Some r
      /\ awaitsRegistration r
      /\ validate e c = None
      /\ multicluster.ClusterName c = resolveClusterName r
      /\ multicluster.ClusterName c <> multicluster.ClusterLocalName
      /\ multicluster.CreateNamespace c = resolveCreateNamespace r
      /\ multicluster.CreateNamespace c <> "".
Proof.
  intros e req w c. unfold_controller. run_all.
  all: calls_norm; intros Hin; find_call Hin.
  all: injection Hin as Hin; subst c.
  all: eexists; split; [reflexivity|].
  all: split; [apply awaitsRegistration_of_tests; assumption|].
  all: split; [assumption|].
  all: split; [reflexivity|].
  all: split; [apply String.eqb_neq; assumption|].
  all: split; [reflexivity | apply resolveCreateNamespace_nonempty].
Qed.

Lemma X18_registrar_input_witness :
  let r := samples.record "" 4 None samples.guarded (samples.readyStatus 3) in
  exists c, In (EvRegister c) (calls samples.fineEnv "prod-west" (samples.holding r))
            /\ multicluster.ClusterName c = "prod-west"
            /\ multicluster.CreateNamespace c = "vela-system".
Proof.
  intros r. exists (configured r samples.tokenConfig).
  assert (Hin : In (EvRegister (configured r samples.tokenConfig))
                   (calls samples.fineEnv "prod-west" (samples.holding r)))
    by (vm_compute; tauto).
  destruct (@X18_registrar_input samples.fineEnv "prod-west" (samples.holding r)
              (configured r samples.tokenConfig) Hin)
    as (r0 & Ho & _ & _ & Hn & _ & Hc & _).
  injection Ho as Ho. subst r0.
  split; [exact Hin|]. split; [rewrite Hn | rewrite Hc]; reflexivity.
Defined.
